(** * Ride-hailing stream generator: the simulation engine

    A shallow embedding of [city_grid.py] (class [CityGrid]) and
    [ride_hailing_generator.py] (class [RideHailingDataGenerator]).

    Conventions of the embedding:
    - a Python [float] is an exact rational ([Q]) and decimal literals stand
      for themselves; the rounding of binary64 arithmetic is left out, except
      in [CityGrid64], which redoes the location sampler with every
      operation rounded as [Binary64] defines it;
    - a Python [int] is a [Z];
    - a [dict] is an association list in insertion order;
    - the process-wide [random] module is an explicit state threaded through
      a state-and-exception monad; an exception keeps the state reached when
      it was raised, as in Python;
    - [math.cos] and [math.sin] are section variables;
    - a global name is looked up when the line that uses it runs, and the
      lookup raises NameError while nothing has bound the name. *)

From Stdlib Require Import ZArith QArith Qround Qabs Qpower List String Ascii Bool Lia Lqa.
From Stdlib Require Floats.
Import ListNotations.

(* ================================================================= *)
(** ** Python built-ins *)

Module Py.

Local Open Scope Q_scope.

(** [int(x)] on a float: truncation toward zero. *)
Definition int (x : Q) : Z := Z.quot (Qnum x) (Zpos (Qden x)).

(** [round(x)] on a float: nearest integer, ties to the even one. *)
Definition round (x : Q) : Z :=
  let f := Qfloor x in
  match Qcompare (x - inject_Z f) (1 # 2) with
  | Lt => f
  | Gt => (f + 1)%Z
  | Eq => if Z.even f then f else (f + 1)%Z
  end.

(** [round(x, 2)]. *)
Definition round2 (x : Q) : Q := inject_Z (round (x * 100)) / 100.

Definition Qlt_bool (x y : Q) : bool := negb (Qle_bool y x).

(** [max(a, b)]: the first argument unless the second is strictly larger. *)
Definition max_int (a b : Z) : Z := if (b >? a)%Z then b else a.
Definition max_float (a b : Q) : Q := if Qlt_bool a b then b else a.

(** [range(n)] has [n] elements, none when [n <= 0]. *)
Definition range_len (n : Z) : nat := Z.to_nat n.

(** A [dict] with string keys: association list in insertion order.
    [d[k] = v] overwrites in place when [k] is present and appends
    otherwise. *)
Definition dict (V : Type) : Type := list (string * V).

Fixpoint setitem {V} (d : dict V) (k : string) (v : V) : dict V :=
  match d with
  | [] => [(k, v)]
  | (k', v') :: d' =>
      if String.eqb k' k then (k', v) :: d' else (k', v') :: setitem d' k v
  end.

Fixpoint getitem {V} (d : dict V) (k : string) : option V :=
  match d with
  | [] => None
  | (k', v') :: d' => if String.eqb k' k then Some v' else getitem d' k
  end.

Definition keys {V} (d : dict V) : list string := map fst d.
Definition values {V} (d : dict V) : list V := map snd d.

End Py.

(* ================================================================= *)
(** ** Binary64 arithmetic

    A finite binary64 number is a rational [m * 2^e] with an integer [m] of
    at most 53 bits.  An operation on floats returns the exact result
    rounded to the nearest such number, ties going to the even [m].  The
    range of the exponent is not modelled: no number met here is near the
    largest or the smallest binary64 number. *)

Module Binary64.

Local Open Scope Q_scope.

(** The binary exponent of a positive number: [floor(log2 x)]. *)
Definition exponent (x : Q) : Z :=
  let k := (Z.log2 (Qnum x) - Z.log2 (Zpos (Qden x)))%Z in
  if Qle_bool (2 ^ k) x then k else (k - 1)%Z.

(** The binary64 number nearest to a positive number: the number is scaled
    until it lies between 2^52 and 2^53, rounded to an integer, ties to
    even, and scaled back. *)
Definition nearest (x : Q) : Q :=
  let e := (exponent x - 52)%Z in
  inject_Z (Py.round (x / 2 ^ e)) * 2 ^ e.

(** Rounding to binary64; also what a decimal literal denotes. *)
Definition binary64 (x : Q) : Q :=
  match Qcompare x 0 with
  | Eq => 0
  | Gt => nearest x
  | Lt => - nearest (- x)
  end.

Definition add (x y : Q) : Q := binary64 (x + y).
Definition sub (x y : Q) : Q := binary64 (x - y).
Definition mul (x y : Q) : Q := binary64 (x * y).

(** The number is a binary64 number. *)
Definition is_float (x : Q) : Prop := binary64 x == x.

End Binary64.

(** The binary64 numbers of the kernel, against which the rounding above is
    checked. *)
Module KernelFloat.

Import Stdlib.Floats.Floats.
Local Open Scope Q_scope.

#[local] Set Warnings "-inexact-float".

(** The rational a finite float stands for. *)
Definition value (f : float) : Q :=
  match Prim2SF f with
  | S754_finite s m e => (if s then -1 else 1) * inject_Z (Zpos m) * 2 ^ e
  | _ => 0
  end.

(** The largest value [random.random()] returns. *)
Definition last_draw : float := (9007199254740991 / 9007199254740992)%float.

(** [center + random.uniform(0, radius) * cos] of the hotspot branch of
    [get_random_location], at the latitude of Midtown, with the largest
    draw for the radius and the cosine of the angle 0.0. *)
Definition midtown_latitude : float :=
  (40.75 + (0 + (0.02 - 0) * last_draw) * 1)%float.

(** The literals of [CityGrid.__init__]: the default ranges, then center
    and radius of each hotspot, in the order of the source. *)
Definition grid_literals : list float :=
  [ 40.70; 40.85; -74.05; -73.90;
    40.75; -73.98; 0.02;   40.71; -74.01; 0.015;
    40.78; -73.95; 0.025;  40.73; -73.99; 0.02;   40.80; -73.96; 0.025;
    40.76; -73.98; 0.015;  40.74; -73.99; 0.015;
    40.64; -73.78; 0.03;   40.77; -73.87; 0.02 ]%float.

End KernelFloat.

(* ================================================================= *)
(** ** State and exceptions *)

Inductive exn : Type :=
| IndexError   (* random.choice on an empty sequence *)
| KeyError     (* subscript of a dict with an absent key *)
| NameError.   (* use of a global name that nothing has bound *)

Inductive outcome (S A : Type) : Type :=
| Return (a : A) (s : S)
| Raise (e : exn) (s : S).

Arguments Return {S A} a s.
Arguments Raise {S A} e s.

Definition M (S A : Type) : Type := S -> outcome S A.

Definition ret {S A} (a : A) : M S A := fun s => Return a s.

Definition bind {S A B} (c : M S A) (k : A -> M S B) : M S B :=
  fun s => match c s with
      | Return a s' => k a s'
      | Raise e s' => Raise e s'
      end.

Definition raise {S A} (e : exn) : M S A := fun s => Raise e s.
Definition gets {S A} (f : S -> A) : M S A := fun s => Return (f s) s.
Definition modify {S} (f : S -> S) : M S unit := fun s => Return tt (f s).

(** The state a run ends in, whether it returned or raised. *)
Definition state_after {S A} (o : outcome S A) : S :=
  match o with
  | Return _ s => s
  | Raise _ s => s
  end.

(** Run a computation on a component of the state. *)
Definition zoom {S T A} (proj : S -> T) (upd : T -> S -> S) (c : M T A) : M S A :=
  fun s => match c (proj s) with
      | Return a t => Return a (upd t s)
      | Raise e t => Raise e (upd t s)
      end.

Declare Scope monad_scope.
Delimit Scope monad_scope with monad.
Notation "x <- c ;; k" := (bind c (fun x => k))
  (at level 61, c at next level, right associativity) : monad_scope.
Notation "c ;;; k" := (bind c (fun _ => k))
  (at level 61, right associativity) : monad_scope.

(** [for _ in range(n): acc = body(acc)], the loop-carried value being the
    local variables the body rebinds or mutates. *)
Fixpoint for_range {S A} (n : nat) (body : A -> M S A) (acc : A) : M S A :=
  match n with
  | O => ret acc
  | Datatypes.S k => bind (body acc) (for_range k body)
  end.

(** [for x in xs: acc = body(acc, x)]. *)
Fixpoint for_each {S A B} (xs : list B) (body : A -> B -> M S A) (acc : A) : M S A :=
  match xs with
  | [] => ret acc
  | x :: xs' => bind (body acc x) (for_each xs' body)
  end.

(* ================================================================= *)
(** ** The [random] module

    The generator state is a tape of raw draws read left to right.  A cell
    holds a natural number, reduced to the range the primitive needs
    ([random()] yields [k / 2^53] with [0 <= k < 2^53], as CPython does), and
    a standard normal deviate for [gauss]. *)

Module Random.

Local Open Scope Q_scope.
Local Open Scope monad_scope.

Record State : Type := mkState {
  raw : nat -> N;
  deviate : nat -> Q;
  cursor : nat
}.

Definition advance (s : State) : State :=
  mkState (raw s) (deviate s) (Datatypes.S (cursor s)).

Definition next_raw : M State N :=
  fun s => Return (raw s (cursor s)) (advance s).

Definition next_deviate : M State Q :=
  fun s => Return (deviate s (cursor s)) (advance s).

(** [_randbelow(n)] for [n > 0]. *)
Definition randbelow (n : N) : M State N :=
  k <- next_raw ;; ret (k mod n)%N.

Definition two53 : N := 9007199254740992.

(** [random.random()]: a float in [0.0, 1.0). *)
Definition random : M State Q :=
  k <- next_raw ;; ret (Z.of_N (k mod two53)%N # 9007199254740992).

(** What the next [random.random()] is going to return. *)
Definition unit_draw (s : State) : Q :=
  Z.of_N (raw s (cursor s) mod two53)%N # 9007199254740992.

(** [random.uniform(a, b)] is [a + (b - a) * random()]. *)
Definition uniform (a b : Q) : M State Q :=
  u <- random ;; ret (a + (b - a) * u).

(** [random.randint(a, b)] is [a + _randbelow(b - a + 1)]. *)
Definition randint (a b : Z) : M State Z :=
  k <- randbelow (Z.to_N (b - a + 1)) ;; ret (a + Z.of_N k)%Z.

(** [random.choice(seq)]: IndexError on an empty sequence, else
    [seq[_randbelow(len(seq))]]. *)
Definition choice {A} (seq : list A) : M State A :=
  match seq with
  | [] => raise IndexError
  | x :: _ =>
      i <- randbelow (N.of_nat (List.length seq)) ;; ret (nth (N.to_nat i) seq x)
  end.

(** [itertools.accumulate(weights)]. *)
Fixpoint accumulate (acc : Q) (ws : list Q) : list Q :=
  match ws with
  | [] => []
  | w :: ws' => (acc + w) :: accumulate (acc + w) ws'
  end.

(** [bisect.bisect(a, x)] on a sorted list: how many entries are [<= x]. *)
Fixpoint bisect (a : list Q) (x : Q) : nat :=
  match a with
  | [] => O
  | y :: a' => if Qle_bool y x then Datatypes.S (bisect a' x) else O
  end.

(** [random.choices(population, weights=weights)[0]], called here with a
    literal population and as many weights: the index is
    [bisect(cum_weights, random() * total, 0, len(population) - 1)]. *)
Definition choices1 {A} (population : list A) (weights : list Q) : M State A :=
  match population with
  | [] => raise IndexError
  | x :: _ =>
      let cum_weights := accumulate 0 weights in
      let total := last cum_weights 0 in
      let hi := (List.length population - 1)%nat in
      u <- random ;;
      ret (nth (bisect (firstn hi cum_weights) (u * total)) population x)
  end.

(** [random.gauss(mu, sigma)] is [mu + z * sigma] for a standard normal
    deviate [z]. *)
Definition gauss (mu sigma : Q) : M State Q :=
  z <- next_deviate ;; ret (mu + z * sigma).

(** [str(uuid.uuid4())[:8]]: eight lower-case hexadecimal digits.
    [uuid.uuid4()] takes its bytes from the operating system and not from
    the [random] module; the tape hands them out all the same, so that a run
    is a function of one tape.  An identifier is therefore never to be read
    as determined by the state of the [random] module. *)
Definition hex_digit (d : N) : ascii :=
  nth (N.to_nat d)
      ["0";"1";"2";"3";"4";"5";"6";"7";"8";"9";"a";"b";"c";"d";"e";"f"]%char
      "0"%char.

Fixpoint hex (digits : nat) (n : N) (suffix : string) : string :=
  match digits with
  | O => suffix
  | Datatypes.S d => hex d (n / 16)%N (String (hex_digit (n mod 16)%N) suffix)
  end.

Definition uuid4_prefix : M State string :=
  k <- next_raw ;; ret (hex 8 k EmptyString).

End Random.

(* ================================================================= *)
(** ** [city_grid.py]: class [CityGrid] *)

Module CityGrid.

Local Open Scope Q_scope.
Local Open Scope monad_scope.
Local Open Scope string_scope.

(** A location is the tuple [(lat, lon)]. *)
Definition Location : Type := (Q * Q)%type.

Record Hotspot : Type := mkHotspot {
  center : Location;
  radius : Q;
  name : string
}.

Record t : Type := mkCityGrid {
  lat_range : Q * Q;
  lon_range : Q * Q;
  hotspots : Py.dict (list Hotspot)
}.

(** [CityGrid.__init__(lat_range, lon_range)]. *)
Definition init (lat_range lon_range : Q * Q) : t :=
  mkCityGrid lat_range lon_range
    [ ("business_districts",
        [ mkHotspot (40.75, -73.98) 0.02 "Midtown";
          mkHotspot (40.71, -74.01) 0.015 "Financial District" ]);
      ("residential_areas",
        [ mkHotspot (40.78, -73.95) 0.025 "Upper East Side";
          mkHotspot (40.73, -73.99) 0.02 "Greenwich Village";
          mkHotspot (40.80, -73.96) 0.025 "Upper West Side" ]);
      ("entertainment_zones",
        [ mkHotspot (40.76, -73.98) 0.015 "Times Square";
          mkHotspot (40.74, -73.99) 0.015 "Chelsea" ]);
      ("airports",
        [ mkHotspot (40.64, -73.78) 0.03 "JFK Airport";
          mkHotspot (40.77, -73.87) 0.02 "LaGuardia Airport" ]) ].

(** [CityGrid()], with the default ranges around New York City. *)
Definition default : t := init (40.70, 40.85) (-74.05, -73.90).

(** The float [math.pi]. *)
Definition math_pi : Q := 884279719003555 # 281474976710656.

Record TripDetails : Type := mkTripDetails {
  distance : Q;
  duration : Z;
  fare : Q
}.

(** The hour-of-day branches of [get_hotspot_demand_factor], as the
    update they make to the local [demand_factor]. *)
Definition adjust_for (category : string) (hour : Z) (demand_factor : Q) : Q :=
  if String.eqb category "business_districts" then
    if (7 <=? hour)%Z && (hour <? 10)%Z then demand_factor + 2.0
    else if (16 <=? hour)%Z && (hour <? 19)%Z then demand_factor + 2.5
    else if (12 <=? hour)%Z && (hour <? 14)%Z then demand_factor + 1.5
    else if (22 <=? hour)%Z || (hour <? 5)%Z then demand_factor + 0.2
    else demand_factor
  else if String.eqb category "residential_areas" then
    if (6 <=? hour)%Z && (hour <? 9)%Z then demand_factor + 1.8
    else if (17 <=? hour)%Z && (hour <? 20)%Z then demand_factor + 1.2
    else demand_factor
  else if String.eqb category "entertainment_zones" then
    if (18 <=? hour)%Z && (hour <? 22)%Z then demand_factor + 2.0
    else if (22 <=? hour)%Z || (hour <? 3)%Z then demand_factor + 3.0
    else demand_factor
  else if String.eqb category "airports" then
    let demand_factor := demand_factor + 1.0 in
    if ((7 <=? hour)%Z && (hour <? 10)%Z) || ((16 <=? hour)%Z && (hour <? 20)%Z)
    then demand_factor + 0.5
    else demand_factor
  else demand_factor.

Section External.

(** The global name [geodesic].  [city_grid.py] calls [geodesic(a, b)] and
    reads [.kilometers] of the result, but binds the name nowhere: its
    imports are numpy, random and math.  The binding is a parameter: [None]
    is the module as it is, [Some f] the module once the name has been bound
    to a distance function [f], in kilometres (by the import that is
    missing, or by a caller that assigns [city_grid.geodesic]). *)
Variable geodesic : option (Location -> Location -> Q).

(** [math.cos] and [math.sin]. *)
Variables math_cos math_sin : Q -> Q.

(** Reading the global [geodesic]. *)
Definition global_geodesic {S} : M S (Location -> Location -> Q) :=
  match geodesic with
  | Some f => ret f
  | None => raise NameError
  end.

Definition get_random_location (self : t) (hotspot_bias : Q)
  : M Random.State Location :=
  u <- Random.random ;;
  if Py.Qlt_bool u hotspot_bias then
    category <- Random.choice (Py.keys (hotspots self)) ;;
    in_category <- match Py.getitem (hotspots self) category with
                   | Some l => ret l
                   | None => raise KeyError
                   end ;;
    hotspot <- Random.choice in_category ;;
    angle <- Random.uniform 0 (2 * math_pi) ;;
    radius <- Random.uniform 0 (radius hotspot) ;;
    let lat_offset := radius * math_cos angle in
    let lon_offset := radius * math_sin angle in
    ret (fst (center hotspot) + lat_offset, snd (center hotspot) + lon_offset)
  else
    lat <- Random.uniform (fst (lat_range self)) (snd (lat_range self)) ;;
    lon <- Random.uniform (fst (lon_range self)) (snd (lon_range self)) ;;
    ret (lat, lon).

(** The body of the inner loop of [get_hotspot_demand_factor]: the first
    thing it does is to call [geodesic]. *)
Definition visit {S} (location : Location) (category : string) (hour : Z)
      (demand_factor : Q) (hotspot : Hotspot) : M S Q :=
  kilometers <- global_geodesic ;;
  let distance := kilometers location (center hotspot) in
  if Qle_bool distance (radius hotspot * 111)
  then ret (adjust_for category hour demand_factor)
  else ret demand_factor.

(** The body of the outer loop, over [self.hotspots.items()]. *)
Definition visit_category {S} (location : Location) (hour : Z) (demand_factor : Q)
      (item : string * list Hotspot) : M S Q :=
  let (category, hotspots) := item in
  for_each hotspots (visit location category hour) demand_factor.

(** [time_of_day] enters only through [time_of_day.hour].  The method uses
    no state; it runs in any. *)
Definition get_hotspot_demand_factor {S} (self : t) (location : Location) (hour : Z)
  : M S Q :=
  demand_factor <- for_each (hotspots self) (visit_category location hour) 1.0 ;;
  ret (Py.max_float 0.1 demand_factor).

Definition calculate_trip_details (pickup destination : Location)
  : M Random.State TripDetails :=
  kilometers <- global_geodesic ;;
  let distance_km := kilometers pickup destination in
  avg_speed <- Random.uniform 15 35 ;;
  let duration_minutes := (distance_km / avg_speed) * 60 in
  traffic <- Random.uniform 0 10 ;;
  let duration_minutes := duration_minutes + traffic in
  let base_fare := 2.50 in
  let per_km_rate := 1.75 in
  let per_minute_rate := 0.35 in
  let fare := base_fare + (distance_km * per_km_rate)
              + (duration_minutes * per_minute_rate) in
  let distance_km := Py.round2 distance_km in
  let duration_minutes := Py.round duration_minutes in
  let fare := Py.round2 fare in
  ret (mkTripDetails distance_km duration_minutes fare).

End External.

(** [city_grid.py] as it is: nothing binds [geodesic]. *)
Definition as_shipped : option (Location -> Location -> Q) := None.

(** *** The demand table of the specification (section 4.1)

    Each row: category, hour windows with both ends included, increment.
    The categories carry the keys of the hotspot dictionary. *)
Definition demand_table : list (string * list (Z * Z) * Q) :=
  [ ("business_districts",  [(7, 9)%Z],                2.0);
    ("business_districts",  [(16, 18)%Z],              2.5);
    ("business_districts",  [(12, 13)%Z],              1.5);
    ("business_districts",  [(22, 23)%Z; (0, 4)%Z],    0.2);
    ("residential_areas",   [(6, 8)%Z],                1.8);
    ("residential_areas",   [(17, 19)%Z],              1.2);
    ("entertainment_zones", [(18, 21)%Z],              2.0);
    ("entertainment_zones", [(22, 23)%Z; (0, 2)%Z],    3.0);
    ("airports",            [(0, 23)%Z],               1.0);
    ("airports",            [(7, 9)%Z; (16, 19)%Z],    0.5) ].

Definition in_window (hour : Z) (w : Z * Z) : bool :=
  (fst w <=? hour)%Z && (hour <=? snd w)%Z.

Definition row_applies (category : string) (hour : Z)
      (row : string * list (Z * Z) * Q) : bool :=
  String.eqb category (fst (fst row)) && existsb (in_window hour) (snd (fst row)).

Definition Qsum (l : list Q) : Q := fold_right Qplus 0 l.

(** The increment one in-range hotspot of [category] contributes at [hour]. *)
Definition table_increment (category : string) (hour : Z) : Q :=
  Qsum (map snd (filter (row_applies category hour) demand_table)).

(** A hotspot is in range when the distance to its center is at most
    [radius * 111] kilometres. *)
Definition in_range (geodesic : Location -> Location -> Q)
      (location : Location) (hotspot : Hotspot) : bool :=
  Qle_bool (geodesic location (center hotspot)) (radius hotspot * 111).

Definition floor_at (low x : Q) : Q := if Qle_bool low x then x else low.

(** The specification's demand factor: 1.0 plus the increments of all
    in-range hotspots, floored at 0.1. *)
Definition table_demand_factor (geodesic : Location -> Location -> Q)
      (self : t) (location : Location) (hour : Z) : Q :=
  floor_at 0.1
    (1.0 + Qsum (flat_map
       (fun item : string * list Hotspot =>
          map (fun _ => table_increment (fst item) hour)
              (filter (in_range geodesic location) (snd item)))
       (hotspots self))).

(** *** Predicates on sampled locations and trip estimates *)

(** The point lies within the hotspot's radius, in degrees, of its center. *)
Definition within_radius (h : Hotspot) (p : Location) : Prop :=
  (fst p - fst (center h)) * (fst p - fst (center h))
  + (snd p - snd (center h)) * (snd p - snd (center h))
  <= radius h * radius h.

Definition in_bounds (self : t) (p : Location) : Prop :=
  (fst (lat_range self) <= fst p <= snd (lat_range self))
  /\ (fst (lon_range self) <= snd p <= snd (lon_range self)).

Definition is_hotspot (self : t) (h : Hotspot) : Prop :=
  exists item, In item (hotspots self) /\ In h (snd item).

(** There is a category and no category is empty. *)
Definition populated (self : t) : Prop :=
  hotspots self <> [] /\ Forall (fun item => snd item <> []) (hotspots self).

(** The test [random.random() < hotspot_bias] of [get_random_location]. *)
Definition takes_hotspot_branch (hotspot_bias : Q) (s : Random.State) : bool :=
  Py.Qlt_bool (Random.unit_draw s) hotspot_bias.

(** The returned fare is the fare formula on the returned distance and
    duration. *)
Definition fare_of_returned (r : TripDetails) : Prop :=
  fare r == Py.round2 (2.50 + distance r * 1.75 + inject_Z (duration r) * 0.35).

(** The claim that the call returns an estimate whose fare is the formula
    on the distance and the duration returned with it. *)
Definition fare_from_returned (geodesic : option (Location -> Location -> Q))
      (pickup destination : Location) (s : Random.State) : Prop :=
  exists r s',
    calculate_trip_details geodesic pickup destination s = Return r s'
    /\ fare_of_returned r.

End CityGrid.

(* ================================================================= *)
(** ** [get_random_location] in binary64

    The method once more, every arithmetic operation rounded as the
    interpreter rounds it.  The numbers of the grid are the floats that the
    literals of [__init__] denote. *)

Module CityGrid64.

Import CityGrid.
Local Open Scope Q_scope.
Local Open Scope monad_scope.

(** The floats a hotspot and a grid hold. *)
Definition stored_hotspot (h : Hotspot) : Hotspot :=
  mkHotspot (Binary64.binary64 (fst (center h)), Binary64.binary64 (snd (center h)))
            (Binary64.binary64 (radius h)) (name h).

Definition stored_range (r : Q * Q) : Q * Q :=
  (Binary64.binary64 (fst r), Binary64.binary64 (snd r)).

Definition stored (self : t) : t :=
  mkCityGrid (stored_range (lat_range self)) (stored_range (lon_range self))
    (map (fun item : string * list Hotspot =>
            (fst item, map stored_hotspot (snd item)))
         (hotspots self)).

(** [CityGrid()] in memory. *)
Definition default : t := stored CityGrid.default.

(** The numbers of a grid: the ranges, then center and radius of each
    hotspot. *)
Definition numbers (self : t) : list Q :=
  [fst (lat_range self); snd (lat_range self);
   fst (lon_range self); snd (lon_range self)]
  ++ flat_map (fun item : string * list Hotspot =>
                 flat_map (fun h => [fst (center h); snd (center h); radius h])
                          (snd item))
              (hotspots self).

(** [random.uniform(a, b)]: [a + (b - a) * random()].  The draw is a
    multiple of 2^-53 below 1 and needs no rounding. *)
Definition uniform (a b : Q) : M Random.State Q :=
  u <- Random.random ;;
  ret (Binary64.add a (Binary64.mul (Binary64.sub b a) u)).

(** The two [random.choice] lines of the hotspot branch: a category, then
    a hotspot of it. *)
Definition choose_hotspot (self : t) : M Random.State Hotspot :=
  category <- Random.choice (Py.keys (hotspots self)) ;;
  in_category <- match Py.getitem (hotspots self) category with
                 | Some l => ret l
                 | None => raise KeyError
                 end ;;
  Random.choice in_category.

Section External.

(** [math.cos] and [math.sin], from floats to floats. *)
Variables math_cos math_sin : Q -> Q.

Definition get_random_location (self : t) (hotspot_bias : Q)
  : M Random.State Location :=
  u <- Random.random ;;
  if Py.Qlt_bool u hotspot_bias then
    hotspot <- choose_hotspot self ;;
    angle <- uniform 0 (Binary64.mul 2 math_pi) ;;
    radius <- uniform 0 (radius hotspot) ;;
    let lat_offset := Binary64.mul radius (math_cos angle) in
    let lon_offset := Binary64.mul radius (math_sin angle) in
    ret (Binary64.add (fst (center hotspot)) lat_offset,
         Binary64.add (snd (center hotspot)) lon_offset)
  else
    lat <- uniform (fst (lat_range self)) (snd (lat_range self)) ;;
    lon <- uniform (fst (lon_range self)) (snd (lon_range self)) ;;
    ret (lat, lon).

(** The claim that, the hotspot branch being taken, the point returned lies
    within the radius of the hotspot chosen. *)
Definition lands_within_radius (self : t) (hotspot_bias : Q) (s : Random.State)
  : Prop :=
  exists h s1 p s',
    choose_hotspot self (Random.advance s) = Return h s1
    /\ get_random_location self hotspot_bias s = Return p s'
    /\ within_radius h p.

End External.

(** A hotspot whose numbers are floats, the radius not negative. *)
Definition float_hotspot (h : Hotspot) : Prop :=
  Binary64.is_float (fst (center h)) /\ Binary64.is_float (snd (center h))
  /\ Binary64.is_float (radius h) /\ 0 <= radius h.

(** A range whose ends are floats in order. *)
Definition float_range (r : Q * Q) : Prop :=
  Binary64.is_float (fst r) /\ Binary64.is_float (snd r) /\ fst r <= snd r.

Definition well_stored (self : t) : Prop :=
  float_range (lat_range self) /\ float_range (lon_range self)
  /\ Forall (fun item : string * list Hotspot => Forall float_hotspot (snd item))
            (hotspots self).

(** Each coordinate of the point is within the radius of the coordinate of
    the center, up to the rounding of [center - radius] and of
    [center + radius]. *)
Definition within_rounded_radius (h : Hotspot) (p : Location) : Prop :=
  (Binary64.sub (fst (center h)) (radius h) <= fst p
   <= Binary64.add (fst (center h)) (radius h))
  /\ (Binary64.sub (snd (center h)) (radius h) <= snd p
      <= Binary64.add (snd (center h)) (radius h)).

(** The point is the center moved by a polar offset of radius [r] and
    angle [a], each operation rounded. *)
Definition polar_offset (math_cos math_sin : Q -> Q) (h : Hotspot) (r a : Q)
      (p : Location) : Prop :=
  p = (Binary64.add (fst (center h)) (Binary64.mul r (math_cos a)),
       Binary64.add (snd (center h)) (Binary64.mul r (math_sin a))).

End CityGrid64.

(* ================================================================= *)
(** ** The records the generator produces and keeps *)

(** [{"latitude": ..., "longitude": ...}]. *)
Record LatLon : Type := mkLatLon {
latitude : Q;
longitude : Q
}.

Module Driver.

Record VehicleInfo : Type := mkVehicleInfo {
vehicle_id : string;
vehicle_type : string;
capacity : Z
}.

Record t : Type := mkDriver {
driver_id : string;
current_location : LatLon;
status : string;
vehicle_info : VehicleInfo;
current_ride_id : option string;
last_update : Z;
battery_level : Q
}.

End Driver.

Module User.

Record t : Type := mkUser {
user_id : string;
name : string;
home_location : CityGrid.Location;
work_location : CityGrid.Location;
preferred_vehicle_type : string;
cancellation_probability : Q;
last_activity : Z
}.

End User.

Module RideRequest.

Record t : Type := mkRideRequest {
request_id : string;
user_id : string;
timestamp : Z;
pickup_location : LatLon;
destination : LatLon;
status : string;
vehicle_type : string;
estimated_fare : Q;
estimated_duration : Z;
estimated_distance : Q;
passenger_count : Z
}.

End RideRequest.

(* ================================================================= *)
(** ** [ride_hailing_generator.py]: class [RideHailingDataGenerator] *)

Module RideHailingDataGenerator.

Local Open Scope Q_scope.
Local Open Scope monad_scope.
Local Open Scope string_scope.

(** The [config] dictionary, with the three keys the class reads. *)
Record Config : Type := mkConfig {
num_drivers : Z;
num_users : Z;
base_request_rate : Q
}.

(** A [Faker] instance: the names it will hand out and how many it has. *)
Record Faker : Type := mkFaker {
names : nat -> string;
issued : nat
}.

(** The attributes of the object.  [current_time] is an aware datetime with
    [microsecond=0], held as whole seconds since the epoch; [active_rides]
    is a dictionary that nothing fills. *)
Record t : Type := mkGenerator {
config : Config;
faker : Faker;
city_grid : CityGrid.t;
current_time : Z;
vehicle_types : Py.dict Z;
drivers : Py.dict Driver.t;
users : Py.dict User.t;
active_rides : Py.dict unit
}.

(** What a method runs in: the object and the [random] module. *)
Record World : Type := mkWorld {
self : t;
rnd : Random.State
}.

Definition set_rnd (r : Random.State) (w : World) : World := mkWorld (self w) r.

Definition rand {A} (c : M Random.State A) : M World A := zoom rnd set_rnd c.

Definition attr {A} (f : t -> A) : M World A := gets (fun w => f (self w)).

Definition set_drivers (d : Py.dict Driver.t) (g : t) : t :=
  mkGenerator (config g) (faker g) (city_grid g) (current_time g)
  (vehicle_types g) d (users g) (active_rides g).

Definition set_users (u : Py.dict User.t) (g : t) : t :=
  mkGenerator (config g) (faker g) (city_grid g) (current_time g)
  (vehicle_types g) (drivers g) u (active_rides g).

Definition set_faker (f : Faker) (g : t) : t :=
  mkGenerator (config g) f (city_grid g) (current_time g)
  (vehicle_types g) (drivers g) (users g) (active_rides g).

Definition set_current_time (c : Z) (g : t) : t :=
  mkGenerator (config g) (faker g) (city_grid g) c
  (vehicle_types g) (drivers g) (users g) (active_rides g).

Definition update_self (f : t -> t) : M World unit :=
  modify (fun w => mkWorld (f (self w)) (rnd w)).

(** [d[k]], KeyError when the key is absent. *)
Definition subscript {V} (d : Py.dict V) (k : string) : M World V :=
  match Py.getitem d k with
  | Some v => ret v
  | None => raise KeyError
  end.

(** [self.faker.name()]. *)
Definition faker_name : M World string :=
  f <- attr faker ;;
  update_self (set_faker (mkFaker (names f) (Datatypes.S (issued f)))) ;;;
  ret (names f (issued f)).

(** The [self.vehicle_types] dictionary: vehicle type and capacity. *)
Definition vehicle_types_table : Py.dict Z :=
  [("Economy", 4%Z); ("Comfort", 4%Z); ("Premium", 4%Z); ("SUV", 6%Z); ("Van", 8%Z)].

Section External.

Variables math_cos math_sin : Q -> Q.

(** One pass through the loop of [_initialize_drivers]. *)
Definition add_driver (drivers : Py.dict Driver.t) : M World (Py.dict Driver.t) :=
  id <- rand Random.uuid4_prefix ;;
  let driver_id := "D-" ++ id in
  grid <- attr city_grid ;;
  location <- rand (CityGrid.get_random_location math_cos math_sin grid 0.8) ;;
  types <- attr vehicle_types ;;
  vehicle_type <- rand (Random.choice (Py.keys types)) ;;
  status <- rand (Random.choices1 ["AVAILABLE"; "BUSY"; "OFFLINE"]
                                  [0.6; 0.3; 0.1]) ;;
  vid <- rand Random.uuid4_prefix ;;
  capacity <- subscript types vehicle_type ;;
  now <- attr current_time ;;
  battery <- rand (Random.uniform 0.3 1.0) ;;
  ret (Py.setitem drivers driver_id
         (Driver.mkDriver driver_id
            (mkLatLon (fst location) (snd location))
            status
            (Driver.mkVehicleInfo ("V-" ++ vid) vehicle_type capacity)
            None now battery)).

Definition _initialize_drivers (num_drivers : Z) : M World (Py.dict Driver.t) :=
  for_range (Py.range_len num_drivers) add_driver [].

(** One pass through the loop of [_initialize_users]. *)
Definition add_user (users : Py.dict User.t) : M World (Py.dict User.t) :=
  id <- rand Random.uuid4_prefix ;;
  let user_id := "U-" ++ id in
  grid <- attr city_grid ;;
  home_location <- rand (CityGrid.get_random_location math_cos math_sin grid 0.9) ;;
  work_location <- rand (CityGrid.get_random_location math_cos math_sin grid 0.9) ;;
  types <- attr vehicle_types ;;
  preferred_vehicle_type <-
    rand (Random.choices1 (Py.keys types) [0.5; 0.25; 0.15; 0.07; 0.03]) ;;
  name <- faker_name ;;
  cancellation <- rand (Random.uniform 0.02 0.08) ;;
  now <- attr current_time ;;
  ret (Py.setitem users user_id
         (User.mkUser user_id name home_location work_location
            preferred_vehicle_type cancellation now)).

Definition _initialize_users (num_users : Z) : M World (Py.dict User.t) :=
  for_range (Py.range_len num_users) add_user [].

(** [RideHailingDataGenerator(config)].  [now] is the wall clock read by
    [datetime.now(tz=madrid_tz).replace(microsecond=0)] and [fake] the fresh
    [Faker()]; the attributes are assigned in the order of the source, the
    two pools being empty until their initializer has returned. *)
Definition init (config : Config) (now : Z) (fake : Faker) : M Random.State t :=
  fun r =>
    let blank :=
      mkGenerator config fake CityGrid.default now vehicle_types_table [] [] [] in
    let construct : M World unit :=
      d <- _initialize_drivers (num_drivers config) ;;
      update_self (set_drivers d) ;;;
      u <- _initialize_users (num_users config) ;;
      update_self (set_users u) in
    match construct (mkWorld blank r) with
    | Return _ w => Return (self w) (rnd w)
    | Raise e w => Raise e (rnd w)
    end.

End External.

(** One pass through the loop of [generate_ride_requests]. *)
Definition append_request (ride_requests : list RideRequest.t)
  : M World (list RideRequest.t) :=
  pool <- attr users ;;
  user <- rand (Random.choice (Py.values pool)) ;;
  id <- rand Random.uuid4_prefix ;;
  let request_id := "R-" ++ id in
  let pickup_location :=
    mkLatLon (fst (User.home_location user)) (snd (User.home_location user)) in
  let destination :=
    mkLatLon (fst (User.work_location user)) (snd (User.work_location user)) in
  now <- attr current_time ;;
  jitter <- rand (Random.randint 0 4) ;;
  fare <- rand (Random.uniform 5.0 50.0) ;;
  minutes <- rand (Random.randint 5 45) ;;
  km <- rand (Random.uniform 1.0 20.0) ;;
  passengers <- rand (Random.randint 1 4) ;;
  ret (ride_requests ++
       [RideRequest.mkRideRequest request_id (User.user_id user)
          (now + jitter)%Z pickup_location destination "REQUESTED"
          (User.preferred_vehicle_type user)
          (Py.round2 fare) minutes (Py.round2 km) passengers])%list.

Definition generate_ride_requests : M World (list RideRequest.t) :=
  rate <- attr (fun g => base_request_rate (config g)) ;;
  g <- rand (Random.gauss rate 1) ;;
  let num_requests := Py.max_int 1 (Py.int g) in
  ride_requests <- for_range (Py.range_len num_requests) append_request [] ;;
  update_self (fun g => set_current_time (current_time g + 5)%Z g) ;;;
  ret ride_requests.

(** The attributes the two initializers read are those [__init__] has
    assigned before it calls them. *)
Definition ready (g : t) : Prop :=
  city_grid g = CityGrid.default /\ vehicle_types g = vehicle_types_table.

(** *** Predicates on a tick *)

(** The Gaussian draw [random.gauss(base_request_rate, 1)] that the tick
    started in [w] makes. *)
Definition gauss_draw (w : World) : Q :=
  base_request_rate (config (self w))
  + Random.deviate (rnd w) (Random.cursor (rnd w)) * 1.

(** The request carries the fields of the user [u]. *)
Definition built_from (u : User.t) (r : RideRequest.t) : Prop :=
  RideRequest.user_id r = User.user_id u
  /\ RideRequest.pickup_location r
     = mkLatLon (fst (User.home_location u)) (snd (User.home_location u))
  /\ RideRequest.destination r
     = mkLatLon (fst (User.work_location u)) (snd (User.work_location u))
  /\ RideRequest.vehicle_type r = User.preferred_vehicle_type u
  /\ RideRequest.status r = "REQUESTED".

(** The request was built from the entry of the pool of [g] whose index is
    a raw draw of [tape] reduced modulo the size of the pool: every index is
    the image of the same share of draws, whatever the entries hold. *)
Definition drawn_from_pool (g : t) (tape : nat -> N) (r : RideRequest.t) : Prop :=
  exists pos u,
    nth_error (Py.values (users g))
              (N.to_nat (tape pos mod N.of_nat (List.length (Py.values (users g)))))
    = Some u
    /\ In u (Py.values (users g))
    /\ built_from u r.

(** The timestamp is the clock of [g] plus 0 to 4 seconds. *)
Definition stamped (g : t) (r : RideRequest.t) : Prop :=
  exists jitter, (0 <= jitter <= 4)%Z
                 /\ RideRequest.timestamp r = (current_time g + jitter)%Z.

Definition emitted_well (g : t) (tape : nat -> N) (r : RideRequest.t) : Prop :=
  drawn_from_pool g tape r /\ stamped g r.

(** The claim that a tick on an empty user pool returns an empty batch. *)
Definition degrades_to_empty_batch (w : World) : Prop :=
  exists w', generate_ride_requests w = Return [] w'.

(** The claim that a tick emits [max(1, round(g))] requests. *)
Definition batch_size_rounded (w : World) : Prop :=
  exists batch w',
    generate_ride_requests w = Return batch w'
    /\ Z.of_nat (List.length batch) = Z.max 1 (Py.round (gauss_draw w)).

(** The claim that a tick returns a batch and leaves the clock 5 seconds
    later. *)
Definition advances_clock (w : World) : Prop :=
  exists batch w',
    generate_ride_requests w = Return batch w'
    /\ current_time (self w') = (current_time (self w) + 5)%Z.

(** The claim that the constructor rejects a configuration. *)
Definition rejected (math_cos math_sin : Q -> Q) (config : Config) : Prop :=
  forall now fake r,
  exists e r', init math_cos math_sin config now fake r = Raise e r'.

End RideHailingDataGenerator.

(* ================================================================= *)
(** ** Concrete inputs used by the examples *)

Module Sample.

Import RideHailingDataGenerator.
Local Open Scope Q_scope.
Local Open Scope string_scope.

(** The [random] state whose first raw draws are [cells] (zeros after
    them) and whose normal deviates are all [z]. *)
Definition tape (cells : list N) (z : Q) : Random.State :=
  Random.mkState (fun i => nth i cells 0%N) (fun _ => z) 0.

(** A planar stand-in for [geodesic]: 111 km per degree along each axis.
    Like the real one it is 0 between a point and itself. *)
Definition planar_km (a b : CityGrid.Location) : Q :=
  111 * (Qabs (fst a - fst b) + Qabs (snd a - snd b)).

(** Stand-ins for [math.cos] and [math.sin]: the direction (3/5, 4/5). *)
Definition cos_stub (_ : Q) : Q := 3 # 5.
Definition sin_stub (_ : Q) : Q := 4 # 5.

(** [math.cos] and [math.sin] as far as the angle 0.0 goes, where they
    are 1.0 and 0.0; at any other angle both stand-ins give 0. *)
Definition cos_near_zero (a : Q) : Q := if Qeq_bool a 0 then 1 else 0.
Definition sin_near_zero (_ : Q) : Q := 0.

(** The draws of a call of the sampler that takes the hotspot branch,
    chooses the first hotspot of the first category, draws the angle 0.0
    and the largest radius there is. *)
Definition outermost : Random.State :=
  tape [0; 0; 0; 0; 9007199254740991]%N 0.

Definition midtown : CityGrid.Location := (40.75, -73.98).
Definition jfk : CityGrid.Location := (40.64, -73.78).

(** Two business hotspots of radius 0.01 whose centers are 0.015 apart. *)
Definition two_business : CityGrid.t :=
  CityGrid.mkCityGrid (-1, 1) (-1, 1)
    [ ("business_districts",
        [ CityGrid.mkHotspot (0, 0) 0.01 "West";
          CityGrid.mkHotspot (0.015, 0) 0.01 "East" ]) ].

(** [random()] is about 0.24 on this cell, so a traffic delay of 2.4. *)
Definition quarter_cell : N := 2161727821137838.

Definition ann : User.t :=
  User.mkUser "U-0000000a" "Ann" (40.75, -73.98) (40.71, -74.01)
              "Economy" 0.05 1000.

Definition bob : User.t :=
  User.mkUser "U-0000000b" "Bob" (40.78, -73.95) (40.76, -73.98)
              "Comfort" 0.03 1000.

Definition fake : Faker := mkFaker (fun _ => "Pat") 0.

(** A generator with the pool [pool] of users, no driver, a base request
    rate of 5 and the clock at 1000. *)
Definition generator (pool : Py.dict User.t) : t :=
  mkGenerator (mkConfig 0 (Z.of_nat (List.length pool)) 5) fake CityGrid.default
              1000 vehicle_types_table [] pool [].

Definition two_users : Py.dict User.t :=
  [("U-0000000a", ann); ("U-0000000b", bob)].

(** The deviate 0.7 makes the Gaussian draw 5.7 at rate 5. *)
Definition world (pool : Py.dict User.t) : World :=
  mkWorld (generator pool)
          (tape [3; 10; 7; 1; 9; 0; 0; 0; 1; 8; 2]%N 0.7).

Definition negative_config : Config := mkConfig (-3) (-1) 5.

End Sample.

(* ================================================================= *)
(** ** Further predicates and inputs *)

Module More.

Import RideHailingDataGenerator.
Local Open Scope Q_scope.
Local Open Scope string_scope.

(** The value a run returned, [d] when it raised. *)
Definition value_of {S A} (o : outcome S A) (d : A) : A :=
  match o with
  | Return a _ => a
  | Raise _ _ => d
  end.

(** What a caller of a method sees of a run: the value returned or the
    exception raised, and the state the [random] module is left in. *)
Definition observable {A} (o : outcome World A) : outcome Random.State A :=
  match o with
  | Return a w => Return a (rnd w)
  | Raise e w => Raise e (rnd w)
  end.

(** An identifier made of [prefix] and eight more characters. *)
Definition id_with_prefix (prefix id : string) : Prop :=
  exists tail, String.length tail = 8%nat /\ id = prefix ++ tail.

(** What [_initialize_drivers] puts under a key, [now] being the time of
    construction: the key is the driver's own id, the status is one of the
    three the initializer draws from, the capacity is the one the vehicle
    table gives for the vehicle type, no ride is assigned, and the battery
    level was drawn between 0.3 and 1.0. *)
Definition driver_ok (now : Z) (item : string * Driver.t) : Prop :=
  let d := snd item in
  fst item = Driver.driver_id d
  /\ id_with_prefix "D-" (Driver.driver_id d)
  /\ id_with_prefix "V-" (Driver.vehicle_id (Driver.vehicle_info d))
  /\ In (Driver.status d) ["AVAILABLE"; "BUSY"; "OFFLINE"]
  /\ Py.getitem vehicle_types_table (Driver.vehicle_type (Driver.vehicle_info d))
     = Some (Driver.capacity (Driver.vehicle_info d))
  /\ Driver.current_ride_id d = None
  /\ Driver.last_update d = now
  /\ 0.3 <= Driver.battery_level d <= 1.0.

(** What [_initialize_users] puts under a key. *)
Definition user_ok (now : Z) (item : string * User.t) : Prop :=
  let u := snd item in
  fst item = User.user_id u
  /\ id_with_prefix "U-" (User.user_id u)
  /\ In (User.preferred_vehicle_type u) (Py.keys vehicle_types_table)
  /\ 0.02 <= User.cancellation_probability u <= 0.08
  /\ User.last_activity u = now.

(** An entry of a pool whose sampled locations satisfy [Lp]. *)
Definition driver_entry (Lp : CityGrid.Location -> Prop) (now : Z)
           (item : string * Driver.t) : Prop :=
  driver_ok now item
  /\ Lp (latitude (Driver.current_location (snd item)),
         longitude (Driver.current_location (snd item))).

Definition user_entry (Lp : CityGrid.Location -> Prop) (now : Z)
           (item : string * User.t) : Prop :=
  user_ok now item
  /\ Lp (User.home_location (snd item)) /\ Lp (User.work_location (snd item)).

(** A pool after [passes] passes of its initializer. *)
Definition pool_after {V} (ok : string * V -> Prop) (passes : nat) (pool : Py.dict V)
  : Prop :=
  Forall ok pool
  /\ NoDup (Py.keys pool)
  /\ (List.length pool <= passes)%nat
  /\ (passes <> O -> pool <> [])
  /\ (passes = O -> pool = []).

(** The estimates and the passenger count of a request are within the
    ranges they are drawn from. *)
Definition priced (r : RideRequest.t) : Prop :=
  id_with_prefix "R-" (RideRequest.request_id r)
  /\ 5 <= RideRequest.estimated_fare r <= 50
  /\ (5 <= RideRequest.estimated_duration r <= 45)%Z
  /\ 1 <= RideRequest.estimated_distance r <= 20
  /\ (1 <= RideRequest.passenger_count r <= 4)%Z.

(** [n] calls of [generate_ride_requests] in a row, nothing else touching
    the generator or the [random] module in between; the batches are in
    the order they were returned. *)
Fixpoint ticks (n : nat) : M World (list (list RideRequest.t)) :=
  match n with
  | O => ret []
  | Datatypes.S k =>
      bind generate_ride_requests
           (fun batch => bind (ticks k) (fun batches => ret (batch :: batches)))
  end.

(** Batch after batch, the requests are stamped within the five seconds
    that start at [clock], then within the next five, and so on. *)
Fixpoint batches_stamped (clock : Z) (batches : list (list RideRequest.t)) : Prop :=
  match batches with
  | [] => True
  | batch :: later =>
      Forall (fun r => (clock <= RideRequest.timestamp r <= clock + 4)%Z) batch
      /\ batches_stamped (clock + 5)%Z later
  end.

(** The [user_id] of the request is a key of the user pool of [g], and the
    request carries the fields of the user stored under it. *)
Definition resolves (g : t) (r : RideRequest.t) : Prop :=
  exists u, Py.getitem (users g) (RideRequest.user_id r) = Some u
            /\ built_from u r.

(** A request without its identifier, which [uuid.uuid4()] makes from the
    entropy of the operating system. *)
Definition without_id (r : RideRequest.t) : RideRequest.t :=
  RideRequest.mkRideRequest
    EmptyString (RideRequest.user_id r) (RideRequest.timestamp r)
    (RideRequest.pickup_location r) (RideRequest.destination r)
    (RideRequest.status r) (RideRequest.vehicle_type r)
    (RideRequest.estimated_fare r) (RideRequest.estimated_duration r)
    (RideRequest.estimated_distance r) (RideRequest.passenger_count r).

(** What a caller sees of a tick when it does not look at the identifiers
    of the requests. *)
Definition apart_from_ids (o : outcome World (list RideRequest.t))
  : outcome Random.State (list RideRequest.t) :=
  match o with
  | Return batch w => Return (map without_id batch) (rnd w)
  | Raise e w => Raise e (rnd w)
  end.

(** The configuration that [eventhub_producer.py] constructs its generator
    with. *)
Definition producer_config : Config := mkConfig 10 50 5.

(** Every raw draw is 5: all identifiers the initializers draw collide. *)
Definition constant_tape : Random.State :=
  Random.mkState (fun _ => 5%N) (fun _ => 0) 0.

End More.

(* ================================================================= *)
(** ** [schemas.py]: the Avro schemas of the two record streams

    A schema is the tree that the dictionary literal of [schemas.py] spells
    out; a datum is a Python value.  [conforms] is the rule of the Avro
    specification for a datum to be an instance of a schema, which is what
    the writer of [fastavro] requires of the records it is handed. *)

Module Avro.

Local Open Scope string_scope.

Unset Elimination Schemes.

Inductive value : Type :=
| VNone
| VStr (s : string)
| VInt (z : Z)
| VFloat (q : Q)
| VDict (items : list (string * value)).

Inductive schema : Type :=
| Primitive (name : string)
| Ref (name : string)
| RecordSchema (name : string) (fields : list (string * schema))
| EnumSchema (name : string) (symbols : list string)
| UnionSchema (branches : list schema).

Set Elimination Schemes.

(** A top-level schema: its namespace and its type. *)
Record top : Type := mkTop {
namespace : string;
root : schema
}.

(** The named types a schema defines, in the order it defines them. *)
Fixpoint named_types (s : schema) : list (string * schema) :=
  match s with
  | RecordSchema n fields =>
      (n, s) :: flat_map (fun f => match f with (_, t) => named_types t end) fields
  | EnumSchema n _ => [(n, s)]
  | UnionSchema branches => flat_map named_types branches
  | Primitive _ | Ref _ => []
  end.

(** Replace the references to named types by their definitions. *)
Fixpoint resolve (env : list (string * schema)) (s : schema) : schema :=
  match s with
  | Ref n => match Py.getitem env n with
             | Some t => t
             | None => s
             end
  | RecordSchema n fields =>
      RecordSchema n (map (fun f => match f with (k, t) => (k, resolve env t) end)
                          fields)
  | UnionSchema branches => UnionSchema (map (resolve env) branches)
  | Primitive _ | EnumSchema _ _ => s
  end.

Definition in_int32 (z : Z) : bool := (-2147483648 <=? z)%Z && (z <=? 2147483647)%Z.

Definition in_int64 (z : Z) : bool :=
  (-9223372036854775808 <=? z)%Z && (z <=? 9223372036854775807)%Z.

Definition conforms_primitive (name : string) (v : value) : bool :=
  if String.eqb name "null" then match v with VNone => true | _ => false end
  else if String.eqb name "string" then match v with VStr _ => true | _ => false end
  else if String.eqb name "int" then match v with VInt z => in_int32 z | _ => false end
  else if String.eqb name "long" then match v with VInt z => in_int64 z | _ => false end
  else if String.eqb name "double" then
    match v with VFloat _ => true | VInt _ => true | _ => false end
  else false.

(** A datum is an instance of a schema whose references are resolved: a
    record needs every field of the schema under its name, keys the schema
    does not name are ignored. *)
Fixpoint conforms (s : schema) (v : value) : bool :=
  match s with
  | Primitive name => conforms_primitive name v
  | Ref _ => false
  | RecordSchema _ fields =>
      match v with
      | VDict items =>
          forallb (fun f => match f with
                            | (k, t) => match Py.getitem items k with
                                        | Some x => conforms t x
                                        | None => false
                                        end
                            end)
                  fields
      | _ => false
      end
  | EnumSchema _ symbols =>
      match v with
      | VStr x => existsb (String.eqb x) symbols
      | _ => false
      end
  | UnionSchema branches => existsb (fun t => conforms t v) branches
  end.

Definition validate (t : top) (v : value) : bool :=
  conforms (resolve (named_types (root t)) (root t)) v.

Definition ride_request_schema : top :=
  mkTop "ridehailing.avro"
    (RecordSchema "RideRequest"
       [ ("request_id", Primitive "string");
         ("user_id", Primitive "string");
         ("timestamp", Primitive "long");
         ("pickup_location",
           RecordSchema "RideLocation"
             [ ("latitude", Primitive "double");
               ("longitude", Primitive "double") ]);
         ("destination", Ref "RideLocation");
         ("status",
           EnumSchema "RequestStatus"
             ["REQUESTED"; "ACCEPTED"; "CANCELLED"; "COMPLETED"]);
         ("vehicle_type", Primitive "string");
         ("estimated_fare", Primitive "double");
         ("estimated_duration", Primitive "int");
         ("estimated_distance", Primitive "double");
         ("passenger_count", Primitive "int") ]).

Definition driver_status_schema : top :=
  mkTop "ridehailing.avro"
    (RecordSchema "DriverStatusRecord"
       [ ("driver_id", Primitive "string");
         ("timestamp", Primitive "long");
         ("current_location",
           RecordSchema "DriverStatusLocation"
             [ ("latitude", Primitive "double");
               ("longitude", Primitive "double") ]);
         ("status",
           EnumSchema "DriverStatusEnumUnique"
             ["AVAILABLE"; "BUSY"; "OFFLINE"; "EN_ROUTE_TO_PICKUP"; "WITH_PASSENGER"]);
         ("vehicle_info",
           RecordSchema "DriverStatusVehicle"
             [ ("vehicle_id", Primitive "string");
               ("vehicle_type", Primitive "string");
               ("capacity", Primitive "int") ]);
         ("current_ride_id", UnionSchema [Primitive "null"; Primitive "string"]);
         ("last_update", Primitive "long");
         ("battery_level", UnionSchema [Primitive "null"; Primitive "double"]) ]).

(** *** The dictionaries behind the records

    The ride request and the driver as the dictionaries that
    [generate_ride_requests] and [_initialize_drivers] build, key by key. *)

Definition location_dict (l : LatLon) : value :=
  VDict [("latitude", VFloat (latitude l)); ("longitude", VFloat (longitude l))].

Definition request_dict (r : RideRequest.t) : value :=
  VDict
    [ ("request_id", VStr (RideRequest.request_id r));
      ("user_id", VStr (RideRequest.user_id r));
      ("timestamp", VInt (RideRequest.timestamp r));
      ("pickup_location", location_dict (RideRequest.pickup_location r));
      ("destination", location_dict (RideRequest.destination r));
      ("status", VStr (RideRequest.status r));
      ("vehicle_type", VStr (RideRequest.vehicle_type r));
      ("estimated_fare", VFloat (RideRequest.estimated_fare r));
      ("estimated_duration", VInt (RideRequest.estimated_duration r));
      ("estimated_distance", VFloat (RideRequest.estimated_distance r));
      ("passenger_count", VInt (RideRequest.passenger_count r)) ].

Definition driver_dict (d : Driver.t) : value :=
  VDict
    [ ("driver_id", VStr (Driver.driver_id d));
      ("current_location", location_dict (Driver.current_location d));
      ("status", VStr (Driver.status d));
      ("vehicle_info",
        VDict
          [ ("vehicle_id", VStr (Driver.vehicle_id (Driver.vehicle_info d)));
            ("vehicle_type", VStr (Driver.vehicle_type (Driver.vehicle_info d)));
            ("capacity", VInt (Driver.capacity (Driver.vehicle_info d))) ]);
      ("current_ride_id",
        match Driver.current_ride_id d with
        | None => VNone
        | Some ride => VStr ride
        end);
      ("last_update", VInt (Driver.last_update d));
      ("battery_level", VFloat (Driver.battery_level d)) ].

(** [driver["timestamp"] = ts], the assignment [eventhub_producer.py] makes
    to every driver before it serializes it. *)
Definition set_timestamp (driver : value) (ts : Z) : value :=
  match driver with
  | VDict items => VDict (Py.setitem items "timestamp" (VInt ts))
  | other => other
  end.

Definition sample_driver : Driver.t :=
  Driver.mkDriver "D-0000000d" (mkLatLon 40.75 (-73.98)) "AVAILABLE"
                  (Driver.mkVehicleInfo "V-0000000e" "SUV" 6) None 1000 0.5.

End Avro.

(* ================================================================= *)
(** * Properties *)

(** ** Python built-ins *)

Module PyFacts.

Local Open Scope Q_scope.

Lemma max_int_spec (a b : Z) : Py.max_int a b = Z.max a b.
Proof.
  unfold Py.max_int. destruct (Z.gtb_spec b a); lia.
Qed.

Lemma Qlt_bool_iff (x y : Q) : Py.Qlt_bool x y = true <-> x < y.
Proof.
  unfold Py.Qlt_bool. rewrite negb_true_iff.
  destruct (Qle_bool y x) eqn:E.
  - apply Qle_bool_iff in E. split; [discriminate | intro; lra].
  - split; [intros _ | reflexivity].
    apply Qnot_le_lt. intro H. apply Qle_bool_iff in H. congruence.
Qed.

Lemma Qlt_bool_false_iff (x y : Q) : Py.Qlt_bool x y = false <-> y <= x.
Proof.
  unfold Py.Qlt_bool. rewrite negb_false_iff. apply Qle_bool_iff.
Qed.

Lemma max_float_lower (low x : Q) : low <= Py.max_float low x.
Proof.
  unfold Py.max_float. destruct (Py.Qlt_bool low x) eqn:E.
  - apply Qlt_bool_iff in E. lra.
  - lra.
Qed.

Lemma max_float_above (low x : Q) : low < x -> Py.max_float low x = x.
Proof.
  intro H. unfold Py.max_float. apply Qlt_bool_iff in H. now rewrite H.
Qed.

Example int_truncates : Py.int 5.7 = 5%Z /\ Py.int (-5.7) = (-5)%Z.
Proof. split; reflexivity. Qed.

Example round_ties_to_even :
  Py.round 2.5 = 2%Z /\ Py.round 3.5 = 4%Z /\ Py.round (-2.5) = (-2)%Z
  /\ Py.round 5.7 = 6%Z /\ Py.round 2.4 = 2%Z.
Proof. repeat split; reflexivity. Qed.

Example round2_keeps_cents : Py.round2 7.897 == 7.90 /\ Py.round2 1.004 == 1.
Proof. split; reflexivity. Qed.

End PyFacts.


(* ================================================================= *)
(** ** Rounding *)

Module RoundFacts.

Local Open Scope Q_scope.

(** Hide the integers of a goal from linear arithmetic over [Q]. *)
Ltac hide_inject_Z :=
  change (inject_Z 1) with 1 in *;
  repeat match goal with
         | |- context [inject_Z ?z] =>
             let q := fresh "q" in set (q := inject_Z z) in *; clearbody q
         | H : context [inject_Z ?z] |- _ =>
             let q := fresh "q" in set (q := inject_Z z) in *; clearbody q
         end.

Lemma round_floor_or_next x :
  Py.round x = Qfloor x \/ Py.round x = (Qfloor x + 1)%Z.
Proof.
  unfold Py.round. destruct (Qcompare _ _); [destruct (Z.even _)| |]; auto.
Qed.

(** [round(x)] is within one half of [x]. *)
Lemma round_close x :
  x - (1 # 2) <= inject_Z (Py.round x) <= x + (1 # 2).
Proof.
  pose proof (Qfloor_le x) as Hlo. pose proof (Qlt_floor x) as Hhi.
  rewrite inject_Z_plus in Hhi.
  unfold Py.round. cbv zeta.
  destruct (Qcompare (x - inject_Z (Qfloor x)) (1 # 2)) eqn:C.
  - apply Qeq_alt in C.
    destruct (Z.even (Qfloor x)); [|rewrite inject_Z_plus];
      hide_inject_Z; lra.
  - apply Qlt_alt in C. hide_inject_Z. lra.
  - apply Qgt_alt in C. rewrite inject_Z_plus. hide_inject_Z. lra.
Qed.

Lemma round_ge_int (n : Z) x : inject_Z n <= x -> (n <= Py.round x)%Z.
Proof.
  intro H. apply Qfloor_resp_le in H. rewrite Qfloor_Z in H.
  destruct (round_floor_or_next x); lia.
Qed.

Lemma round_le_int (n : Z) x : x <= inject_Z n -> (Py.round x <= n)%Z.
Proof.
  intro H. pose proof (round_close x) as [_ C].
  assert (K : inject_Z (Py.round x) < inject_Z (n + 1)).
  { rewrite inject_Z_plus. hide_inject_Z. lra. }
  rewrite <- Zlt_Qlt in K. lia.
Qed.

Lemma round2_unfold x : Py.round2 x == inject_Z (Py.round (x * 100)) * (1 # 100).
Proof. unfold Py.round2. field. Qed.

(** [round(x, 2)] is within half a cent of [x]. *)
Lemma round2_close x : x - (1 # 200) <= Py.round2 x <= x + (1 # 200).
Proof.
  rewrite round2_unfold. pose proof (round_close (x * 100)).
  hide_inject_Z. lra.
Qed.

(** [round(x, 2)] does not cross a whole number of cents. *)
Lemma round2_ge_cents (c : Z) x :
  inject_Z c * (1 # 100) <= x -> inject_Z c * (1 # 100) <= Py.round2 x.
Proof.
  intro H. rewrite round2_unfold.
  assert (K : (c <= Py.round (x * 100))%Z) by (apply round_ge_int; hide_inject_Z; lra).
  rewrite Zle_Qle in K. hide_inject_Z. lra.
Qed.

Lemma round2_le_cents (c : Z) x :
  x <= inject_Z c * (1 # 100) -> Py.round2 x <= inject_Z c * (1 # 100).
Proof.
  intro H. rewrite round2_unfold.
  assert (K : (Py.round (x * 100) <= c)%Z) by (apply round_le_int; hide_inject_Z; lra).
  rewrite Zle_Qle in K. hide_inject_Z. lra.
Qed.

End RoundFacts.


(* ================================================================= *)
(** ** The monad and the [random] module *)

Module RandomFacts.

Import Random.
Local Open Scope Q_scope.

Lemma bind_Return {S A B} {c : M S A} (k : A -> M S B) {s a s'} :
  c s = Return a s' -> bind c k s = k a s'.
Proof. intro H. unfold bind. now rewrite H. Qed.

Lemma bind_Raise {S A B} {c : M S A} (k : A -> M S B) {s e s'} :
  c s = Raise e s' -> bind c k s = Raise e s'.
Proof. intro H. unfold bind. now rewrite H. Qed.

Lemma bind_ret {S A B} (a : A) (k : A -> M S B) s : bind (ret a) k s = k a s.
Proof. reflexivity. Qed.

Lemma unit_draw_range s : 0 <= unit_draw s < 1.
Proof.
  unfold unit_draw.
  assert (H : (raw s (cursor s) mod two53 < two53)%N)
    by (apply N.mod_lt; discriminate).
  revert H. generalize (raw s (cursor s) mod two53)%N. intros n H.
  unfold two53 in H. unfold Qle, Qlt. cbn [Qnum Qden]. lia.
Qed.

(** The largest draw is 1 - 2^-53. *)
Lemma unit_draw_below s : unit_draw s <= 1 - (1 # 9007199254740992).
Proof.
  unfold unit_draw.
  assert (H : (raw s (cursor s) mod two53 < two53)%N)
    by (apply N.mod_lt; discriminate).
  revert H. generalize (raw s (cursor s) mod two53)%N. intros n H.
  unfold two53 in H. unfold Qle. cbn [Qnum Qden Qminus Qplus Qopp]. lia.
Qed.

Lemma random_run s : random s = Return (unit_draw s) (advance s).
Proof. reflexivity. Qed.

Lemma uniform_run a b s :
  uniform a b s = Return (a + (b - a) * unit_draw s) (advance s).
Proof. reflexivity. Qed.

Lemma uniform_between a b u :
  a <= b -> 0 <= u < 1 -> a <= a + (b - a) * u <= b.
Proof. intros H [H0 H1]. split; nra. Qed.

Lemma randint_run a b s :
  (a <= b)%Z ->
  exists j, randint a b s = Return j (advance s) /\ (a <= j <= b)%Z.
Proof.
  intro H. eexists. split; [reflexivity|].
  assert (K : (raw s (cursor s) mod Z.to_N (b - a + 1) < Z.to_N (b - a + 1))%N)
    by (apply N.mod_lt; lia).
  revert K. generalize (raw s (cursor s) mod Z.to_N (b - a + 1))%N. lia.
Qed.

(** [random.choice] on a non-empty sequence returns the element at the
    index the draw gives, reduced modulo the length. *)
Lemma choice_run {A} (seq : list A) s :
  seq <> [] ->
  exists x, choice seq s = Return x (advance s)
            /\ nth_error seq (N.to_nat (raw s (cursor s) mod N.of_nat (List.length seq)))
               = Some x.
Proof.
  intro H. destruct seq as [|x0 l]; [congruence|].
  eexists. split; [reflexivity|].
  apply nth_error_nth'.
  assert (K : (raw s (cursor s) mod N.of_nat (List.length (x0 :: l))
               < N.of_nat (List.length (x0 :: l)))%N)
    by (apply N.mod_lt; cbn [List.length]; lia).
  revert K. generalize (raw s (cursor s) mod N.of_nat (List.length (x0 :: l)))%N. lia.
Qed.

Lemma uuid4_prefix_run s :
  uuid4_prefix s = Return (hex 8 (raw s (cursor s)) EmptyString) (advance s).
Proof. reflexivity. Qed.

Lemma gauss_run mu sigma s :
  gauss mu sigma s = Return (mu + deviate s (cursor s) * sigma) (advance s).
Proof. reflexivity. Qed.

Lemma choice_empty {A} s : choice (@nil A) s = Raise IndexError s.
Proof. reflexivity. Qed.

Lemma getitem_of_key {V} (d : Py.dict V) k :
  In k (Py.keys d) -> exists v, Py.getitem d k = Some v /\ In (k, v) d.
Proof.
  induction d as [|[k' v'] d IH]; cbn; [tauto|].
  intros [->|H].
  - rewrite String.eqb_refl. eauto.
  - destruct (String.eqb_spec k' k) as [->|N]; [eauto|].
    destruct (IH H) as (v & E & I). eauto.
Qed.

End RandomFacts.

(* ================================================================= *)
(** ** The demand factor *)

Module DemandFacts.

Import CityGrid RandomFacts.
Local Open Scope Q_scope.
Local Open Scope string_scope.

Ltac split_tests :=
  repeat match goal with
         | |- context [if ?b then _ else _] => destruct b
         end.

(** Every branch adds a constant to the running factor. *)
Lemma adjust_for_shift category hour df :
  adjust_for category hour df == df + adjust_for category hour 0.
Proof.
  unfold adjust_for. split_tests; cbv zeta; split_tests; ring.
Qed.

(** No branch lowers the running factor, whatever the hour. *)
Lemma adjust_for_increases category hour df : df <= adjust_for category hour df.
Proof.
  unfold adjust_for. split_tests; cbv zeta; split_tests; lra.
Qed.

Lemma hour_cases (hour : Z) :
  (0 <= hour <= 23)%Z -> In hour (map Z.of_nat (seq 0 24)).
Proof.
  intro H. apply in_map_iff. exists (Z.to_nat hour). split; [lia|].
  apply in_seq. lia.
Qed.

Lemma agree_known :
  forallb (fun category =>
             forallb (fun hour => Qeq_bool (adjust_for category hour 0)
                                           (table_increment category hour))
                     (map Z.of_nat (seq 0 24)))
          ["business_districts"; "residential_areas"; "entertainment_zones"; "airports"]
  = true.
Proof. vm_compute. reflexivity. Qed.

(** On the hours of a day the branches of the code are the rows of the
    table. *)
Lemma adjust_for_table category hour :
  (0 <= hour <= 23)%Z -> adjust_for category hour 0 == table_increment category hour.
Proof.
  intro H. apply hour_cases in H.
  assert (K := agree_known). cbn [forallb] in K.
  repeat rewrite andb_true_iff in K.
  destruct K as (Kb & Kr & Ke & Ka & _).
  destruct (String.eqb_spec category "business_districts") as [->|Nb].
  { apply Qeq_bool_iff. rewrite forallb_forall in Kb. now apply (Kb hour). }
  destruct (String.eqb_spec category "residential_areas") as [->|Nr].
  { apply Qeq_bool_iff. rewrite forallb_forall in Kr. now apply (Kr hour). }
  destruct (String.eqb_spec category "entertainment_zones") as [->|Ne].
  { apply Qeq_bool_iff. rewrite forallb_forall in Ke. now apply (Ke hour). }
  destruct (String.eqb_spec category "airports") as [->|Na].
  { apply Qeq_bool_iff. rewrite forallb_forall in Ka. now apply (Ka hour). }
  apply String.eqb_neq in Nb, Nr, Ne, Na.
  unfold adjust_for, table_increment, demand_table, row_applies.
  cbn [filter fst snd]. rewrite Nb, Nr, Ne, Na. cbn. reflexivity.
Qed.

Lemma Qsum_app (l1 l2 : list Q) : Qsum (l1 ++ l2) == Qsum l1 + Qsum l2.
Proof.
  unfold Qsum. induction l1 as [|x l1 IH]; cbn [app fold_right].
  - ring.
  - rewrite IH. ring.
Qed.

Lemma max_float_floor_at (low x y : Q) :
  x == y -> Py.max_float low x == floor_at low y.
Proof.
  intro E. unfold Py.max_float, floor_at.
  destruct (Py.Qlt_bool low x) eqn:A; destruct (Qle_bool low y) eqn:B;
    try assumption; try reflexivity.
  - apply PyFacts.Qlt_bool_iff in A.
    assert (~ low <= y) by (intro K; apply Qle_bool_iff in K; congruence). lra.
  - apply PyFacts.Qlt_bool_false_iff in A. apply Qle_bool_iff in B. lra.
Qed.

(** *** With [geodesic] unbound *)

Section Unbound.

Context {S : Type}.

(** The inner loop raises at its first hotspot. *)
Lemma inner_loop_unbound location category hour hotspots df (s : S) :
  for_each hotspots (visit None location category hour) df s
  = match hotspots with
    | [] => Return df s
    | _ :: _ => Raise NameError s
    end.
Proof. destruct hotspots; reflexivity. Qed.

(** The outer loop gets through the categories that have no hotspot and
    raises in the first that has one. *)
Lemma outer_loop_unbound location hour items df (s : S) :
  for_each items (visit_category None location hour) df s
  = if forallb (fun item : string * list Hotspot =>
                  match snd item with [] => true | _ :: _ => false end) items
    then Return df s
    else Raise NameError s.
Proof.
  induction items as [|[category l] items IH]; [reflexivity|].
  cbn [for_each forallb snd]. unfold bind, visit_category at 1.
  rewrite inner_loop_unbound. destruct l; [exact IH | reflexivity].
Qed.

Lemma demand_factor_unbound self location hour (s : S) :
  get_hotspot_demand_factor None self location hour s
  = if forallb (fun item : string * list Hotspot =>
                  match snd item with [] => true | _ :: _ => false end)
               (hotspots self)
    then Return 1.0 s
    else Raise NameError s.
Proof.
  unfold get_hotspot_demand_factor, bind. rewrite outer_loop_unbound.
  now destruct (forallb _ _).
Qed.

(** C3. In [city_grid.py] as it is, the demand factor of the default grid
    is never returned: whatever the location and the hour, the call raises
    NameError at its first use of [geodesic], before any increment of the
    table has been added. *)
Theorem demand_factor_raises_name_error location hour (s : S) :
  get_hotspot_demand_factor as_shipped default location hour s
  = Raise NameError s.
Proof.
  unfold as_shipped. rewrite demand_factor_unbound. reflexivity.
Qed.

(** C10. In [city_grid.py] as it is, a call returns a demand factor, and
    then 1.0, only on a grid that has no hotspot at all; on every grid with
    a hotspot, the default one among them, it raises NameError and returns
    nothing that could be compared with 1.0. *)
Theorem demand_factor_needs_no_hotspot self location hour (s : S) :
  match get_hotspot_demand_factor as_shipped self location hour s with
  | Return v s' =>
      v = 1.0 /\ s' = s /\ Forall (fun item => snd item = []) (hotspots self)
  | Raise e s' =>
      e = NameError /\ s' = s
      /\ Exists (fun item => snd item <> []) (hotspots self)
  end.
Proof.
  unfold as_shipped. rewrite demand_factor_unbound.
  destruct (forallb _ _) eqn:F.
  - split; [reflexivity|]. split; [reflexivity|].
    rewrite forallb_forall in F. apply Forall_forall. intros item I.
    specialize (F item I). now destruct (snd item).
  - split; [reflexivity|]. split; [reflexivity|].
    apply Exists_exists.
    assert (K : existsb (fun item : string * list Hotspot =>
                           match snd item with [] => false | _ :: _ => true end)
                        (hotspots self) = true).
    { clear - F. induction (hotspots self) as [|item items IH]; [discriminate|].
      cbn [forallb existsb] in *. destruct (snd item); [|reflexivity].
      cbn [andb orb] in *. now apply IH. }
    apply existsb_exists in K. destruct K as (item & I & K).
    exists item. split; [exact I|]. destruct (snd item); [discriminate|discriminate].
Qed.

End Unbound.

(** *** With [geodesic] bound to a distance function *)

Section Bound.

Variable kilometers : Location -> Location -> Q.

Context {S : Type}.

Lemma visit_bound location category hour df h (s : S) :
  visit (Some kilometers) location category hour df h s
  = Return (if in_range kilometers location h
            then adjust_for category hour df else df) s.
Proof.
  unfold visit, global_geodesic, in_range, bind, ret.
  now destruct (Qle_bool _ _).
Qed.

(** The inner loop returns, having added one increment per hotspot in
    range. *)
Lemma inner_loop_run location category hour hotspots : forall df (s : S),
  exists v,
    for_each hotspots (visit (Some kilometers) location category hour) df s
    = Return v s
    /\ v == df + Qsum (map (fun _ => adjust_for category hour 0)
                           (filter (in_range kilometers location) hotspots))
    /\ df <= v.
Proof.
  induction hotspots as [|h l IH]; intros df s.
  - exists df. split; [reflexivity|]. unfold Qsum. cbn [filter map fold_right].
    split; [ring | lra].
  - cbn [for_each]. rewrite (bind_Return _ (visit_bound _ _ _ _ _ _)).
    destruct (IH (if in_range kilometers location h
                  then adjust_for category hour df else df) s)
      as (v & E & V & L).
    exists v. split; [exact E|]. cbn [filter].
    destruct (in_range kilometers location h).
    + pose proof (adjust_for_increases category hour df).
      pose proof (adjust_for_shift category hour df) as Sh.
      unfold Qsum in *. cbn [map fold_right]. split; lra.
    + split; assumption.
Qed.

Lemma outer_loop_run location hour items : forall df (s : S),
  exists v,
    for_each items (visit_category (Some kilometers) location hour) df s
    = Return v s
    /\ v == df + Qsum (flat_map
                         (fun item : string * list Hotspot =>
                            map (fun _ => adjust_for (fst item) hour 0)
                                (filter (in_range kilometers location) (snd item)))
                         items)
    /\ df <= v.
Proof.
  induction items as [|[category l] items IH]; intros df s.
  - exists df. split; [reflexivity|]. unfold Qsum. cbn [flat_map fold_right].
    split; [ring | lra].
  - cbn [for_each]. unfold visit_category at 1.
    destruct (inner_loop_run location category hour l df s) as (v1 & E1 & V1 & L1).
    rewrite (bind_Return _ E1).
    destruct (IH v1 s) as (v & E & V & L).
    exists v. split; [exact E|]. cbn [flat_map fst snd].
    rewrite Qsum_app. split; lra.
Qed.

Lemma increments_of_table location hour items :
  (0 <= hour <= 23)%Z ->
  Qsum (flat_map
          (fun item : string * list Hotspot =>
             map (fun _ => adjust_for (fst item) hour 0)
                 (filter (in_range kilometers location) (snd item)))
          items)
  == Qsum (flat_map
             (fun item : string * list Hotspot =>
                map (fun _ => table_increment (fst item) hour)
                    (filter (in_range kilometers location) (snd item)))
             items).
Proof.
  intro H. induction items as [|[category l] items IH]; [reflexivity|].
  cbn [flat_map fst snd]. rewrite !Qsum_app, IH.
  assert (K : Qsum (map (fun _ : Hotspot => adjust_for category hour 0)
                        (filter (in_range kilometers location) l))
              == Qsum (map (fun _ : Hotspot => table_increment category hour)
                           (filter (in_range kilometers location) l))).
  { induction (filter (in_range kilometers location) l) as [|h f IHf];
      [reflexivity|].
    unfold Qsum in *. cbn [map fold_right].
    rewrite IHf, (adjust_for_table category hour H). reflexivity. }
  rewrite K. reflexivity.
Qed.

(** Once [geodesic] is bound, the method does what the table says: it
    returns, in the state it was called in, a factor of at least 1.0 (so
    that the floor at 0.1 decides nothing), which at an hour of the day is
    1.0 plus the increments the table gives, summed over the hotspots within
    [radius * 111] km. *)
Lemma demand_factor_bound self location hour (s : S) :
  exists v,
    get_hotspot_demand_factor (Some kilometers) self location hour s = Return v s
    /\ 1 <= v
    /\ ((0 <= hour <= 23)%Z
        -> v == table_demand_factor kilometers self location hour).
Proof.
  unfold get_hotspot_demand_factor.
  destruct (outer_loop_run location hour (hotspots self) 1.0 s) as (a & E & V & L).
  rewrite (bind_Return _ E).
  exists (Py.max_float 0.1 a). split; [reflexivity|].
  assert (A : 1 <= a) by lra.
  split.
  - rewrite PyFacts.max_float_above by lra. exact A.
  - intro H. unfold table_demand_factor. apply max_float_floor_at.
    rewrite V. rewrite (increments_of_table location hour (hotspots self) H).
    reflexivity.
Qed.

End Bound.

(** With a planar distance bound to [geodesic]: Midtown at 8, where the
    business hotspot around it adds 2.0 and Times Square, in range too, adds
    nothing in the morning; Midtown at 18, where the business evening rush
    2.5 and the Times Square evening 2.0 add up; JFK at 17, the steady 1.0
    and the peak 0.5. *)
Example demand_with_planar_distance :
  match get_hotspot_demand_factor (Some Sample.planar_km) default Sample.midtown 8 tt,
        get_hotspot_demand_factor (Some Sample.planar_km) default Sample.midtown 18 tt,
        get_hotspot_demand_factor (Some Sample.planar_km) default Sample.jfk 17 tt
  with
  | Return morning _, Return evening _, Return airport _ =>
      morning == 3.0 /\ evening == 5.5 /\ airport == 2.5
  | _, _, _ => False
  end.
Proof. vm_compute. repeat split. Qed.

(** Two business hotspots, the point at the center of the first: the
    second one is out of range and only one increment is added. *)
Example out_of_range_hotspot_ignored :
  match get_hotspot_demand_factor (Some Sample.planar_km) Sample.two_business
          (0, 0) 8 tt with
  | Return v _ => v == 3.0
  | Raise _ _ => False
  end.
Proof. vm_compute. reflexivity. Qed.

End DemandFacts.

(* ================================================================= *)
(** ** The location sampler and the trip estimate *)

Module CityGridFacts.

Import CityGrid RandomFacts.
Local Open Scope Q_scope.

Section Sampler.

Variables math_cos math_sin : Q -> Q.

(** What one call of the sampler does, draw by draw. *)
Lemma sampler_run self hotspot_bias s :
  populated self ->
  exists p s',
    get_random_location math_cos math_sin self hotspot_bias s = Return p s'
    /\ if takes_hotspot_branch hotspot_bias s
       then exists h u a,
           is_hotspot self h /\ 0 <= u < 1
           /\ p = (fst (center h) + (0 + (radius h - 0) * u) * math_cos a,
                   snd (center h) + (0 + (radius h - 0) * u) * math_sin a)
       else exists u v,
           0 <= u < 1 /\ 0 <= v < 1
           /\ p = (fst (lat_range self)
                   + (snd (lat_range self) - fst (lat_range self)) * u,
                   fst (lon_range self)
                   + (snd (lon_range self) - fst (lon_range self)) * v).
Proof.
  intros [Hne Hall].
  unfold get_random_location.
  rewrite (bind_Return _ (random_run s)).
  change (Py.Qlt_bool (Random.unit_draw s) hotspot_bias)
    with (takes_hotspot_branch hotspot_bias s).
  destruct (takes_hotspot_branch hotspot_bias s).
  - (* a hotspot category, then a hotspot of it *)
    assert (Hk : Py.keys (hotspots self) <> []).
    { unfold Py.keys. destruct (hotspots self); [congruence | discriminate]. }
    destruct (choice_run _ (Random.advance s) Hk) as (category & Ec & Ic).
    rewrite (bind_Return _ Ec).
    apply nth_error_In in Ic.
    destruct (getitem_of_key _ _ Ic) as (l & El & Il).
    rewrite El, bind_ret.
    assert (Hl : l <> []).
    { rewrite Forall_forall in Hall. exact (Hall _ Il). }
    destruct (choice_run _ (Random.advance (Random.advance s)) Hl) as (h & Eh & Ih).
    rewrite (bind_Return _ Eh).
    apply nth_error_In in Ih.
    rewrite (bind_Return _ (uniform_run _ _ _)).
    rewrite (bind_Return _ (uniform_run _ _ _)).
    eexists. eexists. split; [reflexivity|].
    eexists h, _, _. split; [|split; [|reflexivity]].
    + exists (category, l). split; assumption.
    + apply unit_draw_range.
  - rewrite (bind_Return _ (uniform_run _ _ _)).
    rewrite (bind_Return _ (uniform_run _ _ _)).
    eexists. eexists. split; [reflexivity|].
    eexists _, _. split; [|split; [|reflexivity]]; apply unit_draw_range.
Qed.

End Sampler.

(** One call of the estimate once [geodesic] is bound, draw by draw. *)
Lemma trip_run kilometers pickup destination s :
  exists speed delay,
    15 <= speed < 35 /\ 0 <= delay < 10 /\
    let d := kilometers pickup destination in
    let m := d / speed * 60 + delay in
    calculate_trip_details (Some kilometers) pickup destination s
    = Return (mkTripDetails (Py.round2 d) (Py.round m)
                            (Py.round2 (2.50 + d * 1.75 + m * 0.35)))
             (Random.advance (Random.advance s)).
Proof.
  pose proof (unit_draw_range s) as R1.
  pose proof (unit_draw_range (Random.advance s)) as R2.
  exists (15 + (35 - 15) * Random.unit_draw s),
         (0 + (10 - 0) * Random.unit_draw (Random.advance s)).
  split; [split; nra|]. split; [split; nra|]. reflexivity.
Qed.

(** The estimate while [geodesic] is unbound: the lookup is the first thing
    the method does. *)
Lemma trip_unbound pickup destination s :
  calculate_trip_details None pickup destination s = Raise NameError s.
Proof. reflexivity. Qed.



End CityGridFacts.

(* ================================================================= *)
(** ** Binary64 rounding *)

Module Binary64Facts.

Import Binary64.
Local Open Scope Q_scope.

Lemma pow2_pos (k : Z) : 0 < 2 ^ k.
Proof. apply Qpower_0_lt. reflexivity. Qed.

Lemma pow2_succ (k : Z) : 2 ^ (k + 1) == 2 * 2 ^ k.
Proof. rewrite Qpower_plus by discriminate. change (2 ^ 1) with 2. ring. Qed.

Lemma pow2_pred (k : Z) : 2 * 2 ^ (k - 1) == 2 ^ k.
Proof.
  rewrite <- pow2_succ. now replace (k - 1 + 1)%Z with k by lia.
Qed.

Lemma pow2_le (a b : Z) : (a <= b)%Z -> 2 ^ a <= 2 ^ b.
Proof. intro H. apply Qpower_le_compat_l; [exact H | discriminate]. Qed.

Lemma pow2_lt_inv (a b : Z) : 2 ^ a < 2 ^ b -> (a < b)%Z.
Proof. intro H. apply (Qpower_lt_compat_l_inv 2); [exact H | reflexivity]. Qed.

(** A positive integer is between two consecutive powers of two. *)
Lemma log2_bounds (n : Z) :
  (0 < n)%Z -> 2 ^ Z.log2 n <= inject_Z n < 2 * 2 ^ Z.log2 n.
Proof.
  intro H. destruct (Z.log2_spec n H) as [L U].
  pose proof (Z.log2_nonneg n) as P.
  rewrite <- pow2_succ.
  change 2 with (inject_Z 2).
  rewrite <- !Zpower_Qpower by lia.
  split; [now rewrite <- Zle_Qle | now rewrite <- Zlt_Qlt; rewrite <- Z.add_1_r in U].
Qed.

Lemma exponent_spec (x : Q) :
  0 < x -> 2 ^ exponent x <= x < 2 * 2 ^ exponent x.
Proof.
  intro Hx. unfold exponent. cbv zeta.
  assert (Hn : (0 < Qnum x)%Z).
  { destruct x as [n d]. unfold Qlt in Hx. cbn in *. lia. }
  pose proof (log2_bounds _ Hn) as [An Bn].
  pose proof (log2_bounds (Zpos (Qden x)) eq_refl) as [Ad Bd].
  set (a := Z.log2 (Qnum x)) in *. set (b := Z.log2 (Zpos (Qden x))) in *.
  assert (E : x * inject_Z (Zpos (Qden x)) == inject_Z (Qnum x)).
  { destruct x as [n d]. unfold Qeq, inject_Z. cbn. lia. }
  pose proof (pow2_pos a) as Pa. pose proof (pow2_pos b) as Pb.
  pose proof (pow2_pos (a - b)) as Pk.
  assert (K : 2 ^ (a - b) * 2 ^ b == 2 ^ a).
  { rewrite <- Qpower_plus by discriminate. now replace (a - b + b)%Z with a by lia. }
  set (A := 2 ^ a) in *. set (B := 2 ^ b) in *. set (P := 2 ^ (a - b)) in *.
  set (N := inject_Z (Qnum x)) in *. set (D := inject_Z (Zpos (Qden x))) in *.
  assert (Hlt : x < 2 * P).
  { apply Qnot_le_lt. intro C.
    assert (2 * P * D <= x * D) by nra. nra. }
  assert (Hgt : P < 2 * x).
  { apply Qnot_le_lt. intro C.
    assert (2 * x * D <= P * D) by nra. nra. }
  destruct (Qle_bool P x) eqn:T.
  - apply Qle_bool_iff in T. split; assumption.
  - assert (x < P).
    { apply Qnot_le_lt. intro C. apply Qle_bool_iff in C. congruence. }
    pose proof (pow2_pred (a - b)) as R. fold P in R.
    set (P' := 2 ^ (a - b - 1)) in *. clearbody P' P A B N D. split; lra.
Qed.

Lemma exponent_unique (x : Q) (k : Z) :
  2 ^ k <= x < 2 * 2 ^ k -> exponent x = k.
Proof.
  intros [L U].
  assert (Hx : 0 < x) by (pose proof (pow2_pos k); lra).
  destruct (exponent_spec x Hx) as [L' U'].
  rewrite <- pow2_succ in U, U'.
  assert (exponent x < k + 1)%Z by (apply pow2_lt_inv; lra).
  assert (k < exponent x + 1)%Z by (apply pow2_lt_inv; lra).
  lia.
Qed.

(** Read a comparison as the order it decides. *)
Ltac compared C :=
  match type of C with
  | _ = Eq => apply Qeq_alt in C
  | _ = Lt => apply Qlt_alt in C
  | _ = Gt => apply Qgt_alt in C
  end.

Lemma round_comp (x y : Q) : x == y -> Py.round x = Py.round y.
Proof.
  intro E. unfold Py.round. cbv zeta.
  rewrite (Qfloor_comp _ _ E).
  assert (K : Qcompare (x - inject_Z (Qfloor y)) (1 # 2)
              = Qcompare (y - inject_Z (Qfloor y)) (1 # 2)).
  { apply Qcompare_comp; [now rewrite E | reflexivity]. }
  now rewrite K.
Qed.

Lemma round_inject_Z (n : Z) : Py.round (inject_Z n) = n.
Proof.
  unfold Py.round. cbv zeta. rewrite Qfloor_Z.
  assert (K : Qcompare (inject_Z n - inject_Z n) (1 # 2) = Lt).
  { rewrite <- Qlt_alt. RoundFacts.hide_inject_Z. lra. }
  now rewrite K.
Qed.

Lemma round_monotone (x y : Q) : x <= y -> (Py.round x <= Py.round y)%Z.
Proof.
  intro H.
  pose proof (Qfloor_resp_le _ _ H) as F.
  destruct (Z.eq_dec (Qfloor x) (Qfloor y)) as [E|N].
  - unfold Py.round. cbv zeta. rewrite E.
    destruct (Qcompare (x - inject_Z (Qfloor y)) (1 # 2)) eqn:Cx;
      destruct (Qcompare (y - inject_Z (Qfloor y)) (1 # 2)) eqn:Cy;
      try (destruct (Z.even (Qfloor y))); try lia; exfalso;
      compared Cx; compared Cy; RoundFacts.hide_inject_Z; lra.
  - destruct (RoundFacts.round_floor_or_next x), (RoundFacts.round_floor_or_next y); lia.
Qed.

(** The significand of a positive number. *)
Lemma significand_bounds (x : Q) :
  0 < x ->
  inject_Z (2 ^ 52) <= x / 2 ^ (exponent x - 52) < inject_Z (2 ^ 53).
Proof.
  intro Hx. destruct (exponent_spec x Hx) as [L U].
  pose proof (pow2_pos (exponent x - 52)) as P.
  assert (K : 2 ^ exponent x == 2 ^ 52 * 2 ^ (exponent x - 52)).
  { rewrite <- Qpower_plus by discriminate.
    now replace (52 + (exponent x - 52))%Z with (exponent x) by lia. }
  rewrite K in L, U.
  set (p := 2 ^ (exponent x - 52)) in *. clearbody p.
  assert (E : x / p * p == x) by (field; lra).
  set (m := x / p) in *. clearbody m.
  change (inject_Z (2 ^ 52)) with (2 ^ 52). change (inject_Z (2 ^ 53)) with (2 * 2 ^ 52).
  set (c := 2 ^ 52) in *. assert (0 < c) by reflexivity. clearbody c.
  split.
  - apply Qnot_lt_le. intro C. assert (m * p < c * p) by nra. lra.
  - apply Qnot_le_lt. intro C. assert (2 * c * p <= m * p) by nra. lra.
Qed.

Lemma nearest_bounds (x : Q) :
  0 < x -> 2 ^ exponent x <= nearest x <= 2 * 2 ^ exponent x.
Proof.
  intro Hx. destruct (significand_bounds x Hx) as [L U].
  unfold nearest. cbv zeta.
  pose proof (pow2_pos (exponent x - 52)) as P.
  assert (K : 2 ^ exponent x == 2 ^ 52 * 2 ^ (exponent x - 52)).
  { rewrite <- Qpower_plus by discriminate.
    now replace (52 + (exponent x - 52))%Z with (exponent x) by lia. }
  rewrite K.
  apply RoundFacts.round_ge_int in L.
  apply Qlt_le_weak, RoundFacts.round_le_int in U.
  rewrite Zle_Qle in L, U.
  set (p := 2 ^ (exponent x - 52)) in *. clearbody p.
  set (m := x / p) in *. clearbody m.
  change (inject_Z (2 ^ 52)) with (2 ^ 52) in L.
  change (inject_Z (2 ^ 53)) with (2 * 2 ^ 52) in U.
  set (c := 2 ^ 52) in *. clearbody c.
  set (r := inject_Z (Py.round m)) in *. clearbody r.
  split; nra.
Qed.

Lemma nearest_pos (x : Q) : 0 < x -> 0 < nearest x.
Proof.
  intro Hx. destruct (nearest_bounds x Hx) as [L _].
  pose proof (pow2_pos (exponent x)). lra.
Qed.

Lemma exponent_comp (x y : Q) : 0 < x -> x == y -> exponent x = exponent y.
Proof.
  intros Hx E. apply exponent_unique. rewrite E.
  apply exponent_spec. now rewrite <- E.
Qed.

Lemma nearest_comp (x y : Q) : 0 < x -> x == y -> nearest x == nearest y.
Proof.
  intros Hx E. unfold nearest. cbv zeta.
  rewrite (exponent_comp x y Hx E).
  rewrite (round_comp (x / 2 ^ (exponent y - 52)) (y / 2 ^ (exponent y - 52))).
  - reflexivity.
  - now rewrite E.
Qed.

Lemma nearest_monotone (x y : Q) : 0 < x -> x <= y -> nearest x <= nearest y.
Proof.
  intros Hx H. assert (Hy : 0 < y) by lra.
  destruct (exponent_spec x Hx) as [Lx Ux].
  destruct (exponent_spec y Hy) as [Ly Uy].
  assert (Hle : (exponent x <= exponent y)%Z).
  { assert (exponent x < exponent y + 1)%Z; [|lia].
    apply pow2_lt_inv. rewrite pow2_succ. lra. }
  destruct (Z.eq_dec (exponent x) (exponent y)) as [E|N].
  - unfold nearest. cbv zeta. rewrite E.
    pose proof (pow2_pos (exponent y - 52)) as P.
    set (p := 2 ^ (exponent y - 52)) in *. clearbody p.
    assert (M : x / p <= y / p).
    { unfold Qdiv. apply Qmult_le_compat_r; [exact H|].
      apply Qlt_le_weak, Qinv_lt_0_compat, P. }
    apply round_monotone in M. rewrite Zle_Qle in M.
    RoundFacts.hide_inject_Z. nra.
  - destruct (nearest_bounds x Hx) as [_ Bx].
    destruct (nearest_bounds y Hy) as [By _].
    assert (S : 2 * 2 ^ exponent x <= 2 ^ exponent y).
    { rewrite <- pow2_succ. apply pow2_le. lia. }
    lra.
Qed.

Lemma nearest_idempotent (x : Q) : 0 < x -> nearest (nearest x) == nearest x.
Proof.
  intro Hx. destruct (significand_bounds x Hx) as [L U].
  pose proof (pow2_pos (exponent x - 52)) as P.
  assert (K : 2 ^ exponent x == 2 ^ 52 * 2 ^ (exponent x - 52)).
  { rewrite <- Qpower_plus by discriminate.
    now replace (52 + (exponent x - 52))%Z with (exponent x) by lia. }
  apply RoundFacts.round_ge_int in L.
  apply Qlt_le_weak, RoundFacts.round_le_int in U.
  unfold nearest at 2 3. cbv zeta.
  set (e := (exponent x - 52)%Z) in *.
  set (n := Py.round (x / 2 ^ e)) in *. clearbody n.
  assert (Hn : (n < 2 ^ 53 \/ n = 2 ^ 53)%Z) by lia.
  destruct Hn as [Hn| ->].
  - assert (X : exponent (inject_Z n * 2 ^ e) = exponent x).
    { apply exponent_unique. rewrite K. fold e.
      rewrite Zle_Qle in L. rewrite Zlt_Qlt in Hn.
      change (inject_Z (2 ^ 52)) with (2 ^ 52) in L.
      change (inject_Z (2 ^ 53)) with (2 * 2 ^ 52) in Hn.
      set (p := 2 ^ e) in *. clearbody p.
      set (c := 2 ^ 52) in *. clearbody c.
      set (r := inject_Z n) in *. clearbody r. split; nra. }
    unfold nearest. cbv zeta. rewrite X. fold e.
    rewrite (round_comp (inject_Z n * 2 ^ e / 2 ^ e) (inject_Z n)).
    + now rewrite round_inject_Z.
    + field. lra.
  - assert (X : exponent (inject_Z (2 ^ 53) * 2 ^ e) = (exponent x + 1)%Z).
    { apply exponent_unique. rewrite pow2_succ, K. fold e.
      change (inject_Z (2 ^ 53)) with (2 * 2 ^ 52).
      set (p := 2 ^ e) in *. clearbody p.
      set (c := 2 ^ 52) in *. assert (0 < c) by reflexivity. clearbody c.
      split; nra. }
    unfold nearest. cbv zeta. rewrite X.
    replace (exponent x + 1 - 52)%Z with (e + 1)%Z by (unfold e; lia).
    rewrite (round_comp (inject_Z (2 ^ 53) * 2 ^ e / 2 ^ (e + 1)) (inject_Z (2 ^ 52))).
    + rewrite round_inject_Z, pow2_succ.
      change (inject_Z (2 ^ 53)) with (2 * inject_Z (2 ^ 52)). ring.
    + rewrite pow2_succ. change (inject_Z (2 ^ 53)) with (2 * inject_Z (2 ^ 52)).
      field. lra.
Qed.

(** *** Rounding to binary64 *)

Lemma binary64_pos (x : Q) : 0 < x -> binary64 x = nearest x.
Proof.
  intro H. unfold binary64.
  assert (C : Qcompare x 0 = Gt) by (now rewrite <- Qgt_alt). now rewrite C.
Qed.

Lemma binary64_neg (x : Q) : x < 0 -> binary64 x = - nearest (- x).
Proof.
  intro H. unfold binary64.
  assert (C : Qcompare x 0 = Lt) by (now rewrite <- Qlt_alt). now rewrite C.
Qed.

Lemma binary64_zero (x : Q) : x == 0 -> binary64 x = 0.
Proof.
  intro H. unfold binary64.
  assert (C : Qcompare x 0 = Eq) by (now rewrite <- Qeq_alt). now rewrite C.
Qed.

Lemma binary64_sign (x : Q) :
  (0 < x -> 0 < binary64 x) /\ (x < 0 -> binary64 x < 0) /\ (x == 0 -> binary64 x == 0).
Proof.
  split; [|split]; intro H.
  - rewrite binary64_pos by exact H. now apply nearest_pos.
  - rewrite binary64_neg by exact H.
    assert (0 < nearest (- x)) by (apply nearest_pos; lra). lra.
  - now rewrite binary64_zero.
Qed.

Lemma binary64_opp (x : Q) : binary64 (- x) == - binary64 x.
Proof.
  destruct (Q_dec x 0) as [[H|H]|H].
  - rewrite (binary64_neg x H), binary64_pos by lra. ring.
  - rewrite (binary64_pos x H), binary64_neg by lra.
    rewrite (nearest_comp (- - x) x); [reflexivity | lra | ring].
  - rewrite (binary64_zero x H), binary64_zero by lra. reflexivity.
Qed.

(** Rounding keeps the order. *)
Lemma binary64_monotone (x y : Q) : x <= y -> binary64 x <= binary64 y.
Proof.
  intro H.
  destruct (binary64_sign x) as (Px & Nx & Zx).
  destruct (binary64_sign y) as (Py & Ny & Zy).
  destruct (Q_dec x 0) as [[Hx|Hx]|Hx]; destruct (Q_dec y 0) as [[Hy|Hy]|Hy];
    try (specialize (Px Hx)); try (specialize (Nx Hx)); try (specialize (Zx Hx));
    try (specialize (Py Hy)); try (specialize (Ny Hy)); try (specialize (Zy Hy));
    try lra.
  - rewrite (binary64_neg x Hx), (binary64_neg y Hy).
    assert (nearest (- y) <= nearest (- x)) by (apply nearest_monotone; lra). lra.
  - rewrite (binary64_pos x Hx), (binary64_pos y Hy). now apply nearest_monotone.
Qed.

(** A binary64 value rounds to itself. *)
Lemma binary64_idempotent (x : Q) : binary64 (binary64 x) == binary64 x.
Proof.
  destruct (binary64_sign x) as (Px & Nx & Zx).
  destruct (Q_dec x 0) as [[H|H]|H].
  - specialize (Nx H). rewrite (binary64_neg _ Nx), (binary64_neg x H).
    rewrite (nearest_comp (- - nearest (- x)) (nearest (- x))).
    + rewrite nearest_idempotent by lra. reflexivity.
    + rewrite binary64_neg in Nx by exact H. lra.
    + ring.
  - specialize (Px H). rewrite (binary64_pos _ Px), (binary64_pos x H).
    now apply nearest_idempotent.
  - rewrite (binary64_zero x H). reflexivity.
Qed.

Lemma binary64_comp (x y : Q) : x == y -> binary64 x == binary64 y.
Proof.
  intro E. destruct (Q_dec x 0) as [[H|H]|H].
  - rewrite (binary64_neg x H), binary64_neg by lra.
    rewrite (nearest_comp (- x) (- y)); [reflexivity | lra | now rewrite E].
  - rewrite (binary64_pos x H), binary64_pos by lra.
    now apply nearest_comp.
  - rewrite (binary64_zero x H), binary64_zero by lra. reflexivity.
Qed.

(** *** Binary64 numbers *)

Lemma is_float_zero : is_float 0.
Proof. reflexivity. Qed.

Lemma is_float_rounded (x : Q) : is_float (binary64 x).
Proof. apply binary64_idempotent. Qed.

Lemma is_float_opp (y : Q) : is_float y -> is_float (- y).
Proof. unfold is_float. intro H. rewrite binary64_opp, H. reflexivity. Qed.

(** Rounding does not step over a binary64 number. *)
Lemma rounded_le (x y : Q) : is_float y -> x <= y -> binary64 x <= y.
Proof.
  unfold is_float. intros F H. rewrite <- F. now apply binary64_monotone.
Qed.

Lemma rounded_ge (x y : Q) : is_float y -> y <= x -> y <= binary64 x.
Proof.
  unfold is_float. intros F H. rewrite <- F. now apply binary64_monotone.
Qed.

(** A float times a draw of [random.random()] does not round to more than
    the number the float was rounded from: the largest draw is 1 - 2^-53,
    and that takes a float at least half a unit in its last place down. *)
Lemma scaled_below (y u : Q) :
  0 <= y -> 0 <= u <= 1 - (1 # 9007199254740992) ->
  binary64 (binary64 y * u) <= y.
Proof.
  intros Hy Hu.
  destruct (Qle_lt_or_eq _ _ Hy) as [Py|Zy].
  2:{ rewrite (binary64_zero y) by (now symmetry).
      rewrite binary64_zero by ring. exact Hy. }
  destruct (Qlt_le_dec y (binary64 y)) as [Above|Below].
  2:{ eapply Qle_trans; [|exact Below].
      apply rounded_le; [apply is_float_rounded|].
      destruct (binary64_sign y) as (S & _). specialize (S Py). nra. }
  rewrite (binary64_pos y Py) in *.
  destruct (significand_bounds y Py) as [L U].
  pose proof (RoundFacts.round_close (y / 2 ^ (exponent y - 52))) as [Cl Cu].
  pose proof (pow2_pos (exponent y - 52)) as Pp.
  assert (K : 2 ^ exponent y == 2 ^ 52 * 2 ^ (exponent y - 52)).
  { rewrite <- Qpower_plus by discriminate.
    now replace (52 + (exponent y - 52))%Z with (exponent y) by lia. }
  unfold nearest in Above |- *. cbv zeta in *.
  set (p := 2 ^ (exponent y - 52)) in *.
  assert (E : y / p * p == y) by (field; lra).
  set (m := y / p) in *.
  set (n := Py.round m) in *.
  assert (Hn : (2 ^ 52 + 1 <= n)%Z).
  { assert (m < inject_Z n) by (apply Qnot_le_lt; intro C; nra).
    assert (inject_Z (2 ^ 52) < inject_Z n) by lra.
    rewrite <- Zlt_Qlt in *. lia. }
  rewrite Zle_Qle, inject_Z_plus in Hn.
  change (inject_Z (2 ^ 52)) with (2 ^ 52) in *.
  change (inject_Z (2 ^ 53)) with (2 * 2 ^ 52) in *.
  change (inject_Z 1) with 1 in Hn.
  set (z := inject_Z n * p * u).
  assert (Hz : 0 <= z) by (unfold z; nra).
  assert (Zmid : z < (inject_Z n - (1 # 2)) * p).
  { unfold z.
    assert (inject_Z n * u <= inject_Z n * (1 - (1 # 9007199254740992))) by nra.
    assert (inject_Z n * (1 - (1 # 9007199254740992)) < inject_Z n - (1 # 2)).
    { change (2 ^ 52) with (4503599627370496 # 1) in Hn. lra. }
    nra. }
  destruct (Qle_lt_or_eq _ _ Hz) as [Pz|Zz].
  2:{ rewrite binary64_zero by (now symmetry). exact Hy. }
  rewrite (binary64_pos z Pz).
  destruct (exponent_spec z Pz) as [Lz Uz].
  assert (Hk : (exponent z <= exponent y)%Z).
  { assert (exponent z < exponent y + 1)%Z; [|lia].
    apply pow2_lt_inv. rewrite pow2_succ, K.
    assert (inject_Z n <= 2 * 2 ^ 52).
    { pose proof (RoundFacts.round_le_int (2 ^ 53) m (Qlt_le_weak _ _ U)) as B.
      fold n in B. rewrite Zle_Qle in B. exact B. }
    change (2 ^ 52) with (4503599627370496 # 1) in *. nra. }
  assert (Top : (inject_Z n - 1) * p <= y).
  { rewrite <- E. nra. }
  eapply Qle_trans; [|exact Top].
  destruct (Z.eq_dec (exponent z) (exponent y)) as [Same|Lower].
  - unfold nearest. cbv zeta. rewrite Same. fold p.
    assert (R : (Py.round (z / p) <= n - 1)%Z).
    { pose proof (RoundFacts.round_close (z / p)) as [_ Rc].
      assert (Ez : z / p * p == z) by (field; lra).
      assert (z / p < inject_Z n - (1 # 2)).
      { apply Qnot_le_lt. intro C. nra. }
      assert (inject_Z (Py.round (z / p)) < inject_Z n) by lra.
      rewrite <- Zlt_Qlt in *. lia. }
    rewrite Zle_Qle in R. unfold Zminus in R. rewrite inject_Z_plus in R.
    change (inject_Z (- (1))) with (- (1)) in R.
    apply Qmult_le_compat_r; lra.
  - destruct (nearest_bounds z Pz) as [_ Bz].
    assert (S : 2 * 2 ^ exponent z <= 2 ^ exponent y).
    { rewrite <- pow2_succ. apply pow2_le. lia. }
    rewrite K in S. change (2 ^ 52) with (4503599627370496 # 1) in *. nra.
Qed.

(** The rounding agrees with the binary64 arithmetic of the kernel on the
    latitude of the example: literal by literal and operation by
    operation. *)
Example agrees_with_kernel_floats :
  add (binary64 40.75) (mul (add 0 (mul (sub (binary64 0.02) 0)
                                        (9007199254740991 # 9007199254740992)))
                            1)
  == KernelFloat.value KernelFloat.midtown_latitude.
Proof. vm_compute. reflexivity. Qed.

(** So do the numbers of the default grid with the literals of the source
    as the kernel reads them. *)
Example stored_numbers_agree :
  map Qred (CityGrid64.numbers CityGrid64.default)
  = map Qred (map KernelFloat.value KernelFloat.grid_literals).
Proof. vm_compute. reflexivity. Qed.

End Binary64Facts.


(* ================================================================= *)
(** ** The location sampler in binary64 *)

Module CityGrid64Facts.

Import CityGrid Binary64 Binary64Facts RandomFacts.
Local Open Scope Q_scope.

Lemma rounded_uniform_run (a b : Q) s :
  CityGrid64.uniform a b s
  = Return (add a (mul (sub b a) (Random.unit_draw s))) (Random.advance s).
Proof. reflexivity. Qed.

(** [random.uniform(0, radius)] is between 0 and the radius. *)
Lemma radius_draw_within (R u : Q) :
  is_float R -> 0 <= R -> 0 <= u < 1 ->
  0 <= add 0 (mul (sub R 0) u) <= R.
Proof.
  intros F HR Hu. unfold add, mul, sub.
  assert (D : 0 <= binary64 (R - 0) <= R).
  { split; [apply rounded_ge | apply rounded_le];
      auto using is_float_zero; lra. }
  set (d := binary64 (R - 0)) in *. clearbody d.
  assert (P : 0 <= binary64 (d * u) <= R).
  { split; [apply rounded_ge | apply rounded_le];
      auto using is_float_zero; nra. }
  set (m := binary64 (d * u)) in *. clearbody m.
  split; [apply rounded_ge | apply rounded_le]; auto using is_float_zero; lra.
Qed.

(** An offset [radius * cos] or [radius * sin] is at most the radius of the
    hotspot either way. *)
Lemma offset_within (R r c : Q) :
  is_float R -> 0 <= r <= R -> -1 <= c <= 1 -> - R <= mul r c <= R.
Proof.
  intros F Hr Hc. unfold mul.
  split; [apply rounded_ge | apply rounded_le]; auto using is_float_opp; nra.
Qed.

Lemma coordinate_within (c R off : Q) :
  - R <= off <= R -> sub c R <= add c off <= add c R.
Proof.
  intro H. unfold sub, add. split; apply binary64_monotone; lra.
Qed.

(** [random.uniform(a, b)] on a range of floats stays in the range. *)
Lemma uniform_within (r : Q * Q) (u : Q) :
  CityGrid64.float_range r -> 0 <= u <= 1 - (1 # 9007199254740992) ->
  fst r <= add (fst r) (mul (sub (snd r) (fst r)) u) <= snd r.
Proof.
  destruct r as [a b]. unfold CityGrid64.float_range. cbn [fst snd].
  intros (Fa & Fb & Hab) Hu.
  assert (D : 0 <= sub b a).
  { unfold sub. apply rounded_ge; [apply is_float_zero | lra]. }
  assert (P : 0 <= mul (sub b a) u <= b - a).
  { unfold mul. split.
    - apply rounded_ge; [apply is_float_zero | nra].
    - unfold sub. apply scaled_below; [lra | exact Hu]. }
  unfold add. split; [apply rounded_ge | apply rounded_le]; auto; lra.
Qed.

(** The two [random.choice] lines on a grid with at least one category and
    no empty category. *)
Lemma choose_hotspot_run self s :
  populated self ->
  exists h,
    CityGrid64.choose_hotspot self s
    = Return h (Random.advance (Random.advance s))
    /\ is_hotspot self h.
Proof.
  intros [Hne Hall]. unfold CityGrid64.choose_hotspot.
  assert (Hk : Py.keys (hotspots self) <> []).
  { unfold Py.keys. destruct (hotspots self); [congruence | discriminate]. }
  destruct (choice_run _ s Hk) as (category & Ec & Ic).
  rewrite (bind_Return _ Ec).
  apply nth_error_In in Ic.
  destruct (getitem_of_key _ _ Ic) as (l & El & Il).
  rewrite El, bind_ret.
  assert (Hl : l <> []).
  { rewrite Forall_forall in Hall. exact (Hall _ Il). }
  destruct (choice_run _ (Random.advance s) Hl) as (h & Eh & Ih).
  exists h. split; [exact Eh|].
  exists (category, l). split; [exact Il | eapply nth_error_In, Ih].
Qed.

Lemma stored_hotspot_float self h :
  CityGrid64.well_stored self -> is_hotspot self h -> CityGrid64.float_hotspot h.
Proof.
  intros (_ & _ & F) (item & Ii & Ih).
  rewrite Forall_forall in F. specialize (F item Ii).
  rewrite Forall_forall in F. exact (F h Ih).
Qed.

Lemma stored_default_populated : populated CityGrid64.default.
Proof. split; [discriminate|]. repeat constructor; discriminate. Qed.

Lemma default_well_stored : CityGrid64.well_stored CityGrid64.default.
Proof.
  split; [|split].
  - repeat split; try apply is_float_rounded; vm_compute; discriminate.
  - repeat split; try apply is_float_rounded; vm_compute; discriminate.
  - repeat (apply Forall_cons || apply Forall_nil);
      (repeat split; try apply is_float_rounded; vm_compute; discriminate).
Qed.

Section Sampler.

Variables math_cos math_sin : Q -> Q.

(** What the library guarantees of the two functions. *)
Hypothesis bounded :
  forall a, (-1 <= math_cos a <= 1) /\ (-1 <= math_sin a <= 1).


End Sampler.

Lemma near_zero_bounded :
  forall a, (-1 <= Sample.cos_near_zero a <= 1) /\ (-1 <= Sample.sin_near_zero a <= 1).
Proof.
  intro a. unfold Sample.cos_near_zero, Sample.sin_near_zero.
  destruct (Qeq_bool a 0); lra.
Qed.



End CityGrid64Facts.


(* ================================================================= *)
(** ** The generator *)

Module GeneratorFacts.

Import RideHailingDataGenerator RandomFacts.
Local Open Scope Z_scope.

(** A loop whose body always returns and keeps an invariant returns, with
    the invariant at the number of passes made. *)
Lemma for_range_invariant {S A} (I : nat -> A -> S -> Prop) (body : A -> M S A) :
  (forall i acc s, I i acc s ->
     exists acc' s', body acc s = Return acc' s' /\ I (Datatypes.S i) acc' s') ->
  forall n i acc s, I i acc s ->
    exists acc' s', for_range n body acc s = Return acc' s' /\ I (n + i)%nat acc' s'.
Proof.
  intros Step n. induction n as [|n IH]; intros i acc s H.
  - exists acc, s. split; [reflexivity | exact H].
  - destruct (Step i acc s H) as (acc1 & s1 & E1 & H1).
    destruct (IH (Datatypes.S i) acc1 s1 H1) as (acc2 & s2 & E2 & H2).
    exists acc2, s2. split.
    + cbn [for_range]. now rewrite (bind_Return _ E1).
    + now replace (Datatypes.S n + i)%nat with (n + Datatypes.S i)%nat by lia.
Qed.

Lemma attr_run {A} (f : t -> A) w : attr f w = Return (f (self w)) w.
Proof. reflexivity. Qed.

Lemma update_self_run (f : t -> t) w :
  update_self f w = Return tt (mkWorld (f (self w)) (rnd w)).
Proof. reflexivity. Qed.

Lemma rand_Return {A} {c : M Random.State A} {w a r} :
  c (rnd w) = Return a r -> rand c w = Return a (mkWorld (self w) r).
Proof. intro H. unfold rand, zoom. now rewrite H. Qed.

Lemma rand_Raise {A} {c : M Random.State A} {w e r} :
  c (rnd w) = Raise e r -> rand c w = Raise e (mkWorld (self w) r).
Proof. intro H. unfold rand, zoom. now rewrite H. Qed.

Lemma values_nonempty {V} (d : Py.dict V) : d <> [] -> Py.values d <> [].
Proof. destruct d; [congruence | discriminate]. Qed.

(** One pass of the request loop on a non-empty pool: it returns, appends
    one request built from a drawn entry and stamped with the clock, and
    touches nothing but the cursor of the [random] state. *)
Lemma append_request_run ride_requests g r :
  users g <> [] ->
  exists req r',
    append_request ride_requests (mkWorld g r)
    = Return (ride_requests ++ [req]) (mkWorld g r')
    /\ Random.raw r' = Random.raw r
    /\ drawn_from_pool g (Random.raw r) req
    /\ stamped g req.
Proof.
  intro Hne. unfold append_request.
  rewrite (bind_Return _ (attr_run users _)). cbn [self].
  destruct (choice_run _ r (values_nonempty _ Hne)) as (u & Eu & Iu).
  rewrite (bind_Return _ (rand_Return (w := mkWorld g r) Eu)). cbn [self].
  rewrite (bind_Return _ (rand_Return (w := mkWorld g _) (uuid4_prefix_run _))).
  cbn [self rnd].
  rewrite (bind_Return _ (attr_run current_time _)). cbn [self].
  destruct (randint_run 0 4 (Random.advance (Random.advance r))) as (j & Ej & Hj);
    [lia|].
  rewrite (bind_Return _ (rand_Return (w := mkWorld g _) Ej)). cbn [self rnd].
  rewrite (bind_Return _ (rand_Return (w := mkWorld g _)
                            (uniform_run _ _ _))). cbn [self rnd].
  destruct (randint_run 5 45
              (Random.advance (Random.advance (Random.advance (Random.advance r)))))
    as (m & Em & Hm); [lia|].
  rewrite (bind_Return _ (rand_Return (w := mkWorld g _) Em)). cbn [self rnd].
  rewrite (bind_Return _ (rand_Return (w := mkWorld g _)
                            (uniform_run _ _ _))). cbn [self rnd].
  match goal with
  | |- context [bind (rand (Random.randint 1 4)) _ (mkWorld g ?s)] =>
      destruct (randint_run 1 4 s) as (n & En & Hn); [lia|];
      rewrite (bind_Return _ (rand_Return (w := mkWorld g s) En))
  end.
  cbn [self rnd].
  eexists. eexists. split; [reflexivity|]. split; [reflexivity|]. split.
  - exists (Random.cursor r), u. split; [exact Iu|]. split.
    + eapply nth_error_In, Iu.
    + repeat split.
  - exists j. split; [exact Hj | reflexivity].
Qed.


Lemma request_loop g tape n : forall acc r,
  users g <> [] ->
  Random.raw r = tape ->
  Forall (emitted_well g tape) acc ->
  exists batch r',
    for_range n append_request acc (mkWorld g r) = Return batch (mkWorld g r')
    /\ List.length batch = (List.length acc + n)%nat
    /\ Forall (emitted_well g tape) batch.
Proof.
  induction n as [|n IH]; intros acc r Hne Ht Hacc.
  - exists acc, r. split; [reflexivity|]. split; [lia | exact Hacc].
  - destruct (append_request_run acc g r Hne) as (req & r1 & E1 & T1 & D1 & S1).
    destruct (IH (acc ++ [req])%list r1 Hne) as (batch & r' & E & L & F).
    + congruence.
    + apply Forall_app. split; [exact Hacc|].
      constructor; [|constructor]. split; [now rewrite <- Ht | exact S1].
    + exists batch, r'. split; [|split; [|exact F]].
      * cbn [for_range]. now rewrite (bind_Return _ E1).
      * rewrite L, length_app. cbn [List.length]. lia.
Qed.

Lemma request_count_positive x : Py.range_len (Py.max_int 1 x) <> O.
Proof. unfold Py.range_len. rewrite PyFacts.max_int_spec. lia. Qed.

(** A tick on a non-empty pool. *)
Lemma tick_run w :
  users (self w) <> [] ->
  exists batch r',
    generate_ride_requests w
    = Return batch
        (mkWorld (set_current_time (current_time (self w) + 5) (self w)) r')
    /\ Z.of_nat (List.length batch) = Py.max_int 1 (Py.int (gauss_draw w))
    /\ Forall (emitted_well (self w) (Random.raw (rnd w))) batch.
Proof.
  destruct w as [g r]. cbn [self rnd]. intro Hne.
  unfold generate_ride_requests.
  rewrite (bind_Return _ (attr_run _ _)). cbn [self].
  rewrite (bind_Return _ (rand_Return (w := mkWorld g r) (gauss_run _ _ _))).
  cbv zeta. cbn [self rnd].
  change (base_request_rate (config g) + Random.deviate r (Random.cursor r) * 1)%Q
    with (gauss_draw (mkWorld g r)).
  destruct (request_loop g (Random.raw r)
              (Py.range_len (Py.max_int 1 (Py.int (gauss_draw (mkWorld g r)))))
              [] (Random.advance r) Hne eq_refl (Forall_nil _))
    as (batch & r' & E & L & F).
  rewrite (bind_Return _ E).
  exists batch, r'. split; [reflexivity|]. split; [|exact F].
  rewrite L. unfold Py.range_len. rewrite PyFacts.max_int_spec. cbn [List.length]. lia.
Qed.

(** A tick on an empty pool: the first [random.choice] raises. *)
Lemma tick_on_empty_pool w :
  users (self w) = [] ->
  generate_ride_requests w
  = Raise IndexError (mkWorld (self w) (Random.advance (rnd w))).
Proof.
  destruct w as [g r]. cbn [self rnd]. intro Hempty.
  unfold generate_ride_requests.
  rewrite (bind_Return _ (attr_run _ _)). cbn [self].
  rewrite (bind_Return _ (rand_Return (w := mkWorld g r) (gauss_run _ _ _))).
  cbv zeta. cbn [self rnd].
  match goal with
  | |- context [Py.range_len ?n] =>
      pose proof (request_count_positive
                    (Py.int (base_request_rate (config g)
                             + Random.deviate r (Random.cursor r) * 1)%Q)) as P;
      destruct (Py.range_len n) as [|k]; [congruence|]
  end.
  apply bind_Raise. cbn [for_range]. apply bind_Raise.
  unfold append_request.
  rewrite (bind_Return _ (attr_run _ _)). cbn [self]. rewrite Hempty.
  apply bind_Raise. reflexivity.
Qed.

(** C1, as the code has it.  On an empty user pool the tick returns no
    batch: the first [random.choice] raises IndexError, after the Gaussian
    draw and before anything of the generator has changed, its clock
    included. *)
Theorem empty_pool_tick_raises w :
  users (self w) = [] ->
  generate_ride_requests w
  = Raise IndexError (mkWorld (self w) (Random.advance (rnd w))).
Proof. exact (tick_on_empty_pool w). Qed.

Lemma empty_pool_tick_raises_witness :
  generate_ride_requests (Sample.world [])
  = Raise IndexError
      (mkWorld (self (Sample.world [])) (Random.advance (rnd (Sample.world [])))).
Proof. apply (empty_pool_tick_raises (Sample.world [])). reflexivity. Defined.

(** C1, as stated, fails on the generator with no user. *)
Lemma empty_pool_no_empty_batch : ~ degrades_to_empty_batch (Sample.world []).
Proof.
  intros [w' H]. rewrite tick_on_empty_pool in H by reflexivity. discriminate.
Qed.

(** C2, as the code has it.  On a non-empty pool a tick returns, and the
    number of requests is [max(1, int(g))], [int] truncating the Gaussian
    draw [g] toward zero; so the batch has at least one request. *)
Theorem batch_size_truncated w :
  users (self w) <> [] ->
  exists batch w',
    generate_ride_requests w = Return batch w'
    /\ Z.of_nat (List.length batch) = Z.max 1 (Py.int (gauss_draw w))
    /\ (1 <= List.length batch)%nat.
Proof.
  intro Hne. destruct (tick_run w Hne) as (batch & r' & E & L & _).
  rewrite PyFacts.max_int_spec in L.
  eexists batch, _. split; [exact E|]. split; [exact L | lia].
Qed.

Lemma batch_size_truncated_witness :
  exists batch w',
    generate_ride_requests (Sample.world Sample.two_users) = Return batch w'
    /\ Z.of_nat (List.length batch)
       = Z.max 1 (Py.int (gauss_draw (Sample.world Sample.two_users)))
    /\ (1 <= List.length batch)%nat.
Proof.
  apply (batch_size_truncated (Sample.world Sample.two_users)). discriminate.
Defined.

(** C2, as stated, fails: with the Gaussian draw 5.7 the tick emits 5
    requests, and [max(1, round(5.7))] is 6. *)
Lemma batch_size_not_rounded :
  gauss_draw (Sample.world Sample.two_users) == 5.7
  /\ ~ batch_size_rounded (Sample.world Sample.two_users).
Proof.
  split; [reflexivity|].
  intros (batch & w' & E & L).
  destruct (tick_run (Sample.world Sample.two_users)) as (b & r' & E' & L' & _);
    [discriminate|].
  rewrite E' in E. injection E as <- _.
  rewrite L' in L. vm_compute in L. discriminate L.
Qed.

(** C7. Every request of a batch is built from an entry of the user pool
    as it is when the tick starts: the entry at the index given by a raw
    draw reduced modulo the size of the pool, whatever the entries hold; the
    request has that user's [user_id], its home as pickup location, its work
    as destination, its preferred vehicle type, and the status REQUESTED.  A
    tick returns no batch only when the pool is empty. *)
Theorem requests_drawn_from_pool w :
  match generate_ride_requests w with
  | Return batch _ => Forall (drawn_from_pool (self w) (Random.raw (rnd w))) batch
  | Raise _ _ => users (self w) = []
  end.
Proof.
  destruct (users (self w)) as [|u l] eqn:Hu.
  - now rewrite (tick_on_empty_pool w Hu).
  - destruct (tick_run w) as (batch & r' & E & _ & F); [congruence|].
    rewrite E. eapply Forall_impl; [|exact F]. now intros req [D _].
Qed.

(** C8, as the code has it.  A tick on a non-empty user pool returns its
    batch; every request of the batch carries the clock value at the start
    of the tick plus 0 to 4 seconds, and when the batch is returned the clock
    is exactly 5 seconds later, hence strictly later. *)
Theorem tick_advances_clock w :
  users (self w) <> [] ->
  exists batch w',
    generate_ride_requests w = Return batch w'
    /\ Forall (stamped (self w)) batch
    /\ current_time (self w') = current_time (self w) + 5
    /\ current_time (self w) < current_time (self w').
Proof.
  intro Hne. destruct (tick_run w Hne) as (batch & r' & E & _ & F).
  eexists batch, _. split; [exact E|].
  cbn [self set_current_time current_time].
  split; [|split; [reflexivity | lia]].
  eapply Forall_impl; [|exact F]. now intros req [_ S].
Qed.

Lemma tick_advances_clock_witness :
  exists batch w',
    generate_ride_requests (Sample.world Sample.two_users) = Return batch w'
    /\ Forall (stamped (self (Sample.world Sample.two_users))) batch
    /\ current_time (self w')
       = current_time (self (Sample.world Sample.two_users)) + 5
    /\ current_time (self (Sample.world Sample.two_users))
       < current_time (self w').
Proof.
  apply (tick_advances_clock (Sample.world Sample.two_users)). discriminate.
Defined.

(** C8, as stated, fails on the generator with no user: the tick started
    with the clock at 1000 returns no batch, and the clock is still at 1000
    when it has raised. *)
Lemma empty_pool_clock_stands :
  ~ advances_clock (Sample.world [])
  /\ current_time (self (Sample.world [])) = 1000
  /\ current_time (self (state_after (generate_ride_requests (Sample.world []))))
     = 1000.
Proof.
  split; [|split].
  - intros (batch & w' & E & _).
    rewrite tick_on_empty_pool in E by reflexivity. discriminate E.
  - reflexivity.
  - rewrite tick_on_empty_pool by reflexivity. reflexivity.
Qed.

(** C9. Whether it returns or raises, a tick leaves the driver pool and the
    user pool as they were, and the generator it leaves is the one it found
    with at most [current_time] replaced. *)
Theorem tick_frame w :
  let w' := state_after (generate_ride_requests w) in
  drivers (self w') = drivers (self w)
  /\ users (self w') = users (self w)
  /\ self w' = set_current_time (current_time (self w')) (self w).
Proof.
  destruct (users (self w)) as [|u l] eqn:Hu.
  - rewrite (tick_on_empty_pool w Hu). cbn. now destruct (self w).
  - destruct (tick_run w) as (batch & r' & E & _); [congruence|].
    rewrite E. cbn. now destruct (self w).
Qed.

(** A tick at clock 1000 on the pool of Ann and Bob, the Gaussian draw
    being 5.7: five requests, the first for Ann and stamped 1001, the
    second for Bob and stamped 1002, and the clock at 1005 afterwards. *)
Example tick_on_two_users :
  match generate_ride_requests (Sample.world Sample.two_users) with
  | Return batch w' =>
      map RideRequest.user_id batch
      = ["U-0000000a"; "U-0000000b"; "U-0000000a"; "U-0000000a"; "U-0000000a"]%string
      /\ map RideRequest.timestamp batch = [1001; 1002; 1000; 1000; 1000]
      /\ map RideRequest.request_id (firstn 2 batch)
         = ["R-00000007"; "R-00000008"]%string
      /\ current_time (self w') = 1005
      /\ users (self w') = Sample.two_users
  | Raise _ _ => False
  end.
Proof. vm_compute. repeat split. Qed.

End GeneratorFacts.

(* ================================================================= *)
(** ** Construction of the generator *)

Module InitFacts.

Import RideHailingDataGenerator RandomFacts GeneratorFacts.
Local Open Scope Z_scope.

Lemma default_populated : CityGrid.populated CityGrid.default.
Proof. split; [discriminate|]. repeat constructor; discriminate. Qed.

Lemma choices1_run {A} (population : list A) weights s :
  population <> [] ->
  exists x, Random.choices1 population weights s = Return x (Random.advance s).
Proof.
  intro H. destruct population as [|x l]; [congruence|].
  eexists. reflexivity.
Qed.

Lemma subscript_run {V} (d : Py.dict V) k w :
  In k (Py.keys d) -> exists v, subscript d k w = Return v w.
Proof.
  intro H. destruct (getitem_of_key d k H) as (v & E & _).
  exists v. unfold subscript. now rewrite E.
Qed.

Section External.

Variables math_cos math_sin : Q -> Q.

Lemma sampler_on_default bias g r :
  exists p r',
    rand (CityGrid.get_random_location math_cos math_sin CityGrid.default bias)
         (mkWorld g r)
    = Return p (mkWorld g r').
Proof.
  destruct (CityGridFacts.sampler_run math_cos math_sin CityGrid.default bias r
              default_populated) as (p & r' & E & _).
  exists p, r'. exact (rand_Return (w := mkWorld g r) E).
Qed.

Lemma add_driver_run acc g r :
  ready g ->
  exists acc' r',
    add_driver math_cos math_sin acc (mkWorld g r) = Return acc' (mkWorld g r').
Proof.
  intros [Hg Ht]. unfold add_driver.
  rewrite (bind_Return _ (rand_Return (w := mkWorld g _) (uuid4_prefix_run _))).
  cbn [self rnd].
  rewrite (bind_Return _ (attr_run _ _)). cbn [self]. rewrite Hg.
  destruct (sampler_on_default 0.8%Q g (Random.advance r)) as (p & r1 & E1).
  rewrite (bind_Return _ E1).
  rewrite (bind_Return _ (attr_run _ _)). cbn [self]. rewrite Ht.
  destruct (choice_run (Py.keys vehicle_types_table) r1) as (vt & E2 & I2);
    [discriminate|].
  rewrite (bind_Return _ (rand_Return (w := mkWorld g _) E2)). cbn [self rnd].
  match goal with
  | |- context [bind (rand (Random.choices1 ?p ?ws)) _ (mkWorld g ?s)] =>
      destruct (choices1_run p ws s) as (st & E3); [discriminate|];
      rewrite (bind_Return _ (rand_Return (w := mkWorld g s) E3))
  end.
  cbn [self rnd].
  rewrite (bind_Return _ (rand_Return (w := mkWorld g _) (uuid4_prefix_run _))).
  cbn [self rnd].
  apply nth_error_In in I2.
  match goal with
  | |- context [bind (subscript _ _) _ ?w] =>
      destruct (subscript_run vehicle_types_table vt w I2) as (cap & E4);
      rewrite (bind_Return _ E4)
  end.
  rewrite (bind_Return _ (attr_run _ _)). cbn [self].
  rewrite (bind_Return _ (rand_Return (w := mkWorld g _) (uniform_run _ _ _))).
  cbn [self rnd].
  eexists. eexists. reflexivity.
Qed.

Lemma add_user_run acc g r :
  ready g ->
  exists acc' f' r',
    add_user math_cos math_sin acc (mkWorld g r)
    = Return acc' (mkWorld (set_faker f' g) r').
Proof.
  intros [Hg Ht]. unfold add_user.
  rewrite (bind_Return _ (rand_Return (w := mkWorld g _) (uuid4_prefix_run _))).
  cbn [self rnd].
  rewrite (bind_Return _ (attr_run _ _)). cbn [self]. rewrite Hg.
  destruct (sampler_on_default 0.9%Q g (Random.advance r)) as (home & r1 & E1).
  rewrite (bind_Return _ E1).
  destruct (sampler_on_default 0.9%Q g r1) as (work & r2 & E2).
  rewrite (bind_Return _ E2).
  rewrite (bind_Return _ (attr_run _ _)). cbn [self]. rewrite Ht.
  destruct (choices1_run (Py.keys vehicle_types_table)
              [0.5; 0.25; 0.15; 0.07; 0.03]%Q r2) as (vt & E3); [discriminate|].
  rewrite (bind_Return _ (rand_Return (w := mkWorld g _) E3)). cbn [self rnd].
  unfold faker_name at 1.
  eexists. eexists. eexists. reflexivity.
Qed.

(** [_initialize_drivers] returns and leaves the object as it found it; a
    count of zero or less gives the empty dictionary. *)
Lemma initialize_drivers_run n g r :
  ready g ->
  exists d r',
    _initialize_drivers math_cos math_sin n (mkWorld g r) = Return d (mkWorld g r')
    /\ (n <= 0 -> d = []).
Proof.
  intro Hg. unfold _initialize_drivers.
  destruct (for_range_invariant
              (fun i acc w => self w = g /\ (i = O -> acc = []))
              (add_driver math_cos math_sin)) with
    (n := Py.range_len n) (i := O) (acc := @nil (string * Driver.t))
    (s := mkWorld g r) as (d & w' & E & Hw & Hd).
  - intros i acc [g0 r0] [Hs _]. cbn [self] in Hs. subst g0.
    destruct (add_driver_run acc g r0 Hg) as (acc' & r' & E).
    exists acc', (mkWorld g r'). split; [exact E|]. split; [reflexivity|discriminate].
  - split; reflexivity.
  - destruct w' as [g' r']. cbn [self] in Hw. subst g'.
    exists d, r'. split; [exact E|].
    intro Hn. apply Hd. unfold Py.range_len. lia.
Qed.

(** [_initialize_users] returns and changes nothing of the object but the
    state of its [Faker]; a count of zero or less gives the empty
    dictionary. *)
Lemma initialize_users_run n g r :
  ready g ->
  exists u f' r',
    _initialize_users math_cos math_sin n (mkWorld g r)
    = Return u (mkWorld (set_faker f' g) r')
    /\ (n <= 0 -> u = []).
Proof.
  intro Hg. unfold _initialize_users.
  destruct (for_range_invariant
              (fun i acc w => (exists f, self w = set_faker f g) /\ (i = O -> acc = []))
              (add_user math_cos math_sin)) with
    (n := Py.range_len n) (i := O) (acc := @nil (string * User.t))
    (s := mkWorld g r) as (u & w' & E & (f' & Hw) & Hu).
  - intros i acc [g0 r0] [[f Hs] _]. cbn [self] in Hs. subst g0.
    destruct (add_user_run acc (set_faker f g) r0) as (acc' & f' & r' & E).
    { destruct Hg. split; assumption. }
    exists acc', (mkWorld (set_faker f' (set_faker f g)) r').
    split; [exact E|]. split; [|discriminate].
    exists f'. reflexivity.
  - split; [|reflexivity]. exists (faker g). now destruct g.
  - destruct w' as [g' r']. cbn [self] in Hw. subst g'.
    exists u, f', r'. split; [exact E|].
    intro Hn. apply Hu. unfold Py.range_len. lia.
Qed.

(** The constructor always returns; a pool whose count is zero or less is
    empty. *)
Lemma init_run config now fake r :
  exists g r',
    init math_cos math_sin config now fake r = Return g r'
    /\ (num_drivers config <= 0 -> drivers g = [])
    /\ (num_users config <= 0 -> users g = []).
Proof.
  unfold init. cbv zeta.
  set (blank := mkGenerator config fake CityGrid.default now vehicle_types_table
                            [] [] []).
  destruct (initialize_drivers_run (num_drivers config) blank r)
    as (d & r1 & E1 & H1); [split; reflexivity|].
  rewrite (bind_Return _ E1).
  rewrite (bind_Return _ (update_self_run _ _)). cbn [self rnd].
  destruct (initialize_users_run (num_users config) (set_drivers d blank) r1)
    as (u & f' & r2 & E2 & H2); [split; reflexivity|].
  rewrite (bind_Return _ E2).
  eexists. eexists. split; [reflexivity|].
  cbn. split; assumption.
Qed.

(** C6, as the code has it.  A configuration with a negative [num_drivers]
    or a negative [num_users] is accepted: the constructor returns, and the
    pool whose count is negative is empty, no entity having been built for
    it. *)
Theorem negative_count_gives_empty_pool config now fake r :
  num_drivers config < 0 \/ num_users config < 0 ->
  exists g r',
    init math_cos math_sin config now fake r = Return g r'
    /\ (num_drivers config < 0 -> drivers g = [])
    /\ (num_users config < 0 -> users g = []).
Proof.
  intros _. destruct (init_run config now fake r) as (g & r' & E & Hd & Hu).
  exists g, r'. split; [exact E|]. split; intro; [apply Hd | apply Hu]; lia.
Qed.

End External.

Lemma negative_count_gives_empty_pool_witness :
  exists g r',
    init Sample.cos_stub Sample.sin_stub Sample.negative_config 1000 Sample.fake
         (Sample.tape [] 0)
    = Return g r'
    /\ (num_drivers Sample.negative_config < 0 -> drivers g = [])
    /\ (num_users Sample.negative_config < 0 -> users g = []).
Proof.
  apply (negative_count_gives_empty_pool Sample.cos_stub Sample.sin_stub).
  left. reflexivity.
Defined.

(** C6, as stated, fails: the configuration with [num_drivers = -3] and
    [num_users = -1] is not rejected. *)
Lemma negative_config_not_rejected :
  num_drivers Sample.negative_config < 0
  /\ num_users Sample.negative_config < 0
  /\ ~ rejected Sample.cos_stub Sample.sin_stub Sample.negative_config.
Proof.
  split; [reflexivity|]. split; [reflexivity|].
  intro H. destruct (H 1000 Sample.fake (Sample.tape [] 0)) as (e & r' & E).
  destruct (init_run Sample.cos_stub Sample.sin_stub Sample.negative_config
              1000 Sample.fake (Sample.tape [] 0)) as (g & r2 & E2 & _).
  rewrite E2 in E. discriminate E.
Qed.

End InitFacts.
(* ================================================================= *)
(** * Further properties *)

(** ** Where the sampler of the default grid puts its points *)

Module CityGridMore.

Import CityGrid RandomFacts.
Local Open Scope Q_scope.

Section Envelope.

Variables math_cos math_sin : Q -> Q.

Hypothesis unit_circle :
  forall a, math_cos a * math_cos a + math_sin a * math_sin a <= 1.

Lemma offsets_bounded rad u a :
  0 <= rad -> 0 <= u < 1 ->
  (- rad <= (0 + (rad - 0) * u) * math_cos a <= rad)
  /\ (- rad <= (0 + (rad - 0) * u) * math_sin a <= rad).
Proof.
  intros Hr Hu. pose proof (unit_circle a) as C.
  set (x := math_cos a) in *. set (y := math_sin a) in *. clearbody x y.
  assert (-1 <= x <= 1) by nra.
  assert (-1 <= y <= 1) by nra.
  assert (0 <= rad * u <= rad) by nra.
  set (r := rad * u) in *.
  assert (E : 0 + (rad - 0) * u == r) by (unfold r; ring).
  rewrite E. clearbody r. split; split; nra.
Qed.


End Envelope.


End CityGridMore.

(* ================================================================= *)
(** ** More on the pools *)

Module PoolFacts.

Import RideHailingDataGenerator RandomFacts GeneratorFacts InitFacts More.
Local Open Scope Z_scope.

Lemma hex_length digits : forall n suffix,
  String.length (Random.hex digits n suffix) = (digits + String.length suffix)%nat.
Proof.
  induction digits as [|d IH]; intros n suffix; [reflexivity|].
  cbn [Random.hex]. rewrite IH. cbn [String.length]. lia.
Qed.

Lemma uuid_id_with_prefix prefix k :
  id_with_prefix prefix (prefix ++ Random.hex 8 k EmptyString).
Proof. eexists. split; [|reflexivity]. now rewrite hex_length. Qed.

Lemma nth_head_default {A} i (x : A) l : In (nth i (x :: l) x) (x :: l).
Proof.
  destruct (Nat.lt_ge_cases i (List.length (x :: l))) as [H|H].
  - now apply nth_In.
  - rewrite nth_overflow by exact H. now left.
Qed.

Lemma choices1_run_in {A} (population : list A) weights s :
  population <> [] ->
  exists x, Random.choices1 population weights s = Return x (Random.advance s)
            /\ In x population.
Proof.
  intro H. destruct population as [|x l]; [congruence|].
  eexists. split; [reflexivity|]. apply nth_head_default.
Qed.

(** *** Assignment to a key *)

Lemma setitem_Forall {V} (P : string * V -> Prop) (d : Py.dict V) k v :
  Forall P d -> P (k, v) -> Forall P (Py.setitem d k v).
Proof.
  intros Hd Hv. induction d as [|[k' v'] d IH]; cbn [Py.setitem].
  - now constructor.
  - inversion Hd as [|? ? H1 H2]; subst.
    destruct (String.eqb_spec k' k) as [->|N]; constructor; auto.
Qed.

Lemma setitem_keys_in {V} (d : Py.dict V) k v k0 :
  In k0 (Py.keys (Py.setitem d k v)) <-> In k0 (Py.keys d) \/ k0 = k.
Proof.
  induction d as [|[k' v'] d IH]; cbn [Py.setitem].
  - cbn. intuition.
  - destruct (String.eqb_spec k' k) as [->|N]; cbn [Py.keys map fst] in *.
    + cbn. intuition.
    + cbn [In]. rewrite IH. intuition.
Qed.

Lemma setitem_NoDup {V} (d : Py.dict V) k v :
  NoDup (Py.keys d) -> NoDup (Py.keys (Py.setitem d k v)).
Proof.
  induction d as [|[k' v'] d IH]; cbn [Py.setitem]; intro H.
  - cbn. constructor; [intros []|constructor].
  - destruct (String.eqb_spec k' k) as [->|N]; [exact H|].
    cbn [Py.keys map fst] in *. inversion H as [|? ? H1 H2]; subst.
    constructor; [|now apply IH].
    change (map fst (Py.setitem d k v)) with (Py.keys (Py.setitem d k v)).
    rewrite setitem_keys_in. intros [I|E]; [now apply H1 | congruence].
Qed.

Lemma setitem_length {V} (d : Py.dict V) k v :
  (List.length (Py.setitem d k v) <= Datatypes.S (List.length d))%nat.
Proof.
  induction d as [|[k' v'] d IH]; cbn [Py.setitem]; [cbn; lia|].
  destruct (String.eqb k' k); cbn [List.length]; lia.
Qed.

Lemma setitem_nonempty {V} (d : Py.dict V) k v : Py.setitem d k v <> [].
Proof.
  destruct d as [|[k' v'] d]; cbn [Py.setitem]; [discriminate|].
  destruct (String.eqb k' k); discriminate.
Qed.

(** One more pass keeps a pool a pool. *)
Lemma pool_after_setitem {V} (ok : string * V -> Prop) i (d : Py.dict V) k v :
  pool_after ok i d -> ok (k, v) -> pool_after ok (Datatypes.S i) (Py.setitem d k v).
Proof.
  intros (F & N & L & _ & _) H. repeat split.
  - now apply setitem_Forall.
  - now apply setitem_NoDup.
  - pose proof (setitem_length d k v). lia.
  - intros _. apply setitem_nonempty.
  - discriminate.
Qed.

Lemma pool_after_start {V} (ok : string * V -> Prop) : pool_after ok O (@nil (string * V)).
Proof. repeat split; auto; constructor. Qed.

(** Reading a pool back: a key of a pool leads to the entry stored with it. *)
Lemma getitem_of_entry {V} (d : Py.dict V) k v :
  NoDup (Py.keys d) -> In (k, v) d -> Py.getitem d k = Some v.
Proof.
  induction d as [|[k' v'] d IH]; cbn [Py.getitem]; intros N I; [destruct I|].
  cbn [Py.keys map fst] in N. inversion N as [|? ? H1 H2]; subst.
  destruct I as [E|I].
  - injection E as -> ->. now rewrite String.eqb_refl.
  - destruct (String.eqb_spec k' k) as [->|_]; [|now apply IH].
    exfalso. apply H1. change k with (fst (k, v)). now apply in_map.
Qed.

Section Initializers.

Variables math_cos math_sin : Q -> Q.

(** A property of every point the sampler returns on the default grid. *)
Variable Lp : CityGrid.Location -> Prop.

Hypothesis sampler_sound :
  forall bias s p s',
    CityGrid.get_random_location math_cos math_sin CityGrid.default bias s
    = Return p s' -> Lp p.

Lemma sample_on_default bias g r :
  exists p r',
    rand (CityGrid.get_random_location math_cos math_sin CityGrid.default bias)
         (mkWorld g r)
    = Return p (mkWorld g r')
    /\ Lp p.
Proof.
  destruct (CityGridFacts.sampler_run math_cos math_sin CityGrid.default bias r
              default_populated) as (p & r' & E & _).
  exists p, r'. split; [exact (rand_Return (w := mkWorld g r) E)|].
  exact (sampler_sound _ _ _ _ E).
Qed.

Lemma add_driver_spec acc g r :
  ready g ->
  exists d r',
    add_driver math_cos math_sin acc (mkWorld g r)
    = Return (Py.setitem acc (Driver.driver_id d) d) (mkWorld g r')
    /\ driver_ok (current_time g) (Driver.driver_id d, d)
    /\ Lp (latitude (Driver.current_location d),
           longitude (Driver.current_location d)).
Proof.
  intros [Hg Ht]. unfold add_driver.
  rewrite (bind_Return _ (rand_Return (w := mkWorld g _) (uuid4_prefix_run _))).
  cbn [self rnd].
  rewrite (bind_Return _ (attr_run _ _)). cbn [self]. rewrite Hg.
  destruct (sample_on_default 0.8%Q g (Random.advance r)) as (p & r1 & E1 & Hp).
  rewrite (bind_Return _ E1).
  rewrite (bind_Return _ (attr_run _ _)). cbn [self]. rewrite Ht.
  destruct (choice_run (Py.keys vehicle_types_table) r1) as (vt & E2 & I2);
    [discriminate|].
  rewrite (bind_Return _ (rand_Return (w := mkWorld g _) E2)). cbn [self rnd].
  match goal with
  | |- context [bind (rand (Random.choices1 ?p ?ws)) _ (mkWorld g ?s)] =>
      destruct (choices1_run_in p ws s) as (st & E3 & I3); [discriminate|];
      rewrite (bind_Return _ (rand_Return (w := mkWorld g s) E3))
  end.
  cbn [self rnd].
  rewrite (bind_Return _ (rand_Return (w := mkWorld g _) (uuid4_prefix_run _))).
  cbn [self rnd].
  apply nth_error_In in I2.
  destruct (getitem_of_key vehicle_types_table vt I2) as (cap & E4 & _).
  unfold subscript. rewrite E4, bind_ret.
  rewrite (bind_Return _ (attr_run _ _)). cbn [self].
  rewrite (bind_Return _ (rand_Return (w := mkWorld g _) (uniform_run _ _ _))).
  cbn [self rnd].
  eexists (Driver.mkDriver _ _ _ _ _ _ _), _. split; [reflexivity|].
  cbn [Driver.driver_id Driver.current_location latitude longitude].
  split; [|now destruct p].
  unfold driver_ok.
  cbn [fst snd Driver.driver_id Driver.vehicle_info Driver.vehicle_id
       Driver.status Driver.vehicle_type Driver.capacity Driver.current_ride_id
       Driver.last_update Driver.battery_level].
  repeat split; try assumption; try apply uuid_id_with_prefix.
  - apply uniform_between; [lra | apply unit_draw_range].
  - apply uniform_between; [lra | apply unit_draw_range].
Qed.

Lemma add_user_spec acc g r :
  ready g ->
  exists u r',
    add_user math_cos math_sin acc (mkWorld g r)
    = Return (Py.setitem acc (User.user_id u) u)
             (mkWorld (set_faker (mkFaker (names (faker g))
                                          (Datatypes.S (issued (faker g)))) g) r')
    /\ user_ok (current_time g) (User.user_id u, u)
    /\ Lp (User.home_location u) /\ Lp (User.work_location u).
Proof.
  intros [Hg Ht]. unfold add_user.
  rewrite (bind_Return _ (rand_Return (w := mkWorld g _) (uuid4_prefix_run _))).
  cbn [self rnd].
  rewrite (bind_Return _ (attr_run _ _)). cbn [self]. rewrite Hg.
  destruct (sample_on_default 0.9%Q g (Random.advance r)) as (home & r1 & E1 & Hh).
  rewrite (bind_Return _ E1).
  destruct (sample_on_default 0.9%Q g r1) as (work & r2 & E2 & Hw).
  rewrite (bind_Return _ E2).
  rewrite (bind_Return _ (attr_run _ _)). cbn [self]. rewrite Ht.
  destruct (choices1_run_in (Py.keys vehicle_types_table)
              [0.5; 0.25; 0.15; 0.07; 0.03]%Q r2) as (vt & E3 & I3); [discriminate|].
  rewrite (bind_Return _ (rand_Return (w := mkWorld g _) E3)). cbn [self rnd].
  unfold faker_name at 1.
  eexists (User.mkUser _ _ _ _ _ _ _), _. split; [reflexivity|].
  cbn [User.user_id User.home_location User.work_location].
  split; [|split; assumption].
  unfold user_ok.
  cbn [fst snd User.user_id User.preferred_vehicle_type
       User.cancellation_probability User.last_activity].
  repeat split; try assumption; try apply uuid_id_with_prefix.
  - apply uniform_between; [lra | apply unit_draw_range].
  - apply uniform_between; [lra | apply unit_draw_range].
Qed.

Lemma initialize_drivers_spec n g r :
  ready g ->
  exists d r',
    _initialize_drivers math_cos math_sin n (mkWorld g r) = Return d (mkWorld g r')
    /\ pool_after (driver_entry Lp (current_time g)) (Z.to_nat n) d.
Proof.
  intro Hg. unfold _initialize_drivers.
  destruct (for_range_invariant
              (fun i acc w =>
                 self w = g /\ pool_after (driver_entry Lp (current_time g)) i acc)
              (add_driver math_cos math_sin)) with
    (n := Py.range_len n) (i := O) (acc := @nil (string * Driver.t))
    (s := mkWorld g r) as (d & [g' r'] & E & Hw & Hd).
  - intros i acc [g0 r0] [Hs Hp]. cbn [self] in Hs. subst g0.
    destruct (add_driver_spec acc g r0 Hg) as (d & r' & E & Hok & Hl).
    eexists _, (mkWorld g r'). split; [exact E|]. split; [reflexivity|].
    apply pool_after_setitem; [exact Hp|]. split; assumption.
  - split; [reflexivity | apply pool_after_start].
  - cbn [self] in Hw. subst g'. exists d, r'. split; [exact E|].
    unfold Py.range_len in Hd. now rewrite Nat.add_0_r in Hd.
Qed.

Lemma initialize_users_spec n g r :
  ready g ->
  exists u r',
    _initialize_users math_cos math_sin n (mkWorld g r)
    = Return u
        (mkWorld (set_faker (mkFaker (names (faker g))
                                     (issued (faker g) + Z.to_nat n)) g) r')
    /\ pool_after (user_entry Lp (current_time g)) (Z.to_nat n) u.
Proof.
  intro Hg. unfold _initialize_users.
  destruct (for_range_invariant
              (fun i acc w =>
                 self w = set_faker (mkFaker (names (faker g))
                                             (issued (faker g) + i)) g
                 /\ pool_after (user_entry Lp (current_time g)) i acc)
              (add_user math_cos math_sin)) with
    (n := Py.range_len n) (i := O) (acc := @nil (string * User.t))
    (s := mkWorld g r) as (u & [g' r'] & E & Hw & Hu).
  - intros i acc [g0 r0] [Hs Hp]. cbn [self] in Hs. subst g0.
    destruct (add_user_spec acc
                (set_faker (mkFaker (names (faker g)) (issued (faker g) + i)) g) r0)
      as (u & r' & E & Hok & Hl).
    { destruct Hg. split; assumption. }
    eexists _, (mkWorld _ r'). split; [exact E|]. split.
    + cbn. now rewrite Nat.add_succ_r.
    + apply pool_after_setitem; [exact Hp|]. split; assumption.
  - split; [|apply pool_after_start].
    cbn [self]. rewrite Nat.add_0_r. now destruct g as [? [] ? ? ? ? ? ?].
  - cbn [self] in Hw. subst g'. exists u, r'. split.
    + unfold Py.range_len in E. now rewrite Nat.add_0_r in E.
    + unfold Py.range_len in Hu. now rewrite Nat.add_0_r in Hu.
Qed.

(** What the constructor returns. *)
Lemma init_spec config now fake r :
  exists g r',
    init math_cos math_sin config now fake r = Return g r'
    /\ pool_after (driver_entry Lp now) (Z.to_nat (num_drivers config)) (drivers g)
    /\ pool_after (user_entry Lp now) (Z.to_nat (num_users config)) (users g)
    /\ RideHailingDataGenerator.config g = config
    /\ current_time g = now
    /\ city_grid g = CityGrid.default
    /\ vehicle_types g = vehicle_types_table
    /\ active_rides g = []
    /\ faker g = mkFaker (names fake) (issued fake + Z.to_nat (num_users config)).
Proof.
  unfold init. cbv zeta.
  set (blank := mkGenerator config fake CityGrid.default now vehicle_types_table
                            [] [] []).
  destruct (initialize_drivers_spec (num_drivers config) blank r)
    as (d & r1 & E1 & H1); [split; reflexivity|].
  rewrite (bind_Return _ E1).
  rewrite (bind_Return _ (update_self_run _ _)). cbn [self rnd].
  destruct (initialize_users_spec (num_users config) (set_drivers d blank) r1)
    as (u & r2 & E2 & H2); [split; reflexivity|].
  rewrite (bind_Return _ E2).
  eexists. eexists. split; [reflexivity|].
  cbn. repeat split; try apply H1; try apply H2.
Qed.

End Initializers.

Section Constructor.

Variables math_cos math_sin : Q -> Q.

Lemma init_plain config now fake r :
  exists g r',
    init math_cos math_sin config now fake r = Return g r'
    /\ pool_after (driver_entry (fun _ => True) now)
                  (Z.to_nat (num_drivers config)) (drivers g)
    /\ pool_after (user_entry (fun _ => True) now)
                  (Z.to_nat (num_users config)) (users g)
    /\ RideHailingDataGenerator.config g = config
    /\ current_time g = now
    /\ city_grid g = CityGrid.default
    /\ vehicle_types g = vehicle_types_table
    /\ active_rides g = []
    /\ faker g = mkFaker (names fake) (issued fake + Z.to_nat (num_users config)).
Proof. apply init_spec. intros. exact I. Qed.

(** X7. Every entry of the driver pool that the constructor returns is
    stored under the driver's own id, "D-" and eight characters; its status
    is AVAILABLE, BUSY or OFFLINE; its vehicle id is "V-" and eight
    characters and its capacity the one the vehicle table gives for its
    vehicle type; it has no ride, was last updated at the time of
    construction, and has a battery level between 0.3 and 1.0. *)
Theorem constructed_drivers_well_formed config now fake r :
  exists g r',
    init math_cos math_sin config now fake r = Return g r'
    /\ Forall (driver_ok now) (drivers g).
Proof.
  destruct (init_plain config now fake r) as (g & r' & E & (F & _) & _).
  exists g, r'. split; [exact E|].
  eapply Forall_impl; [|exact F]. now intros item [H _].
Qed.

(** X8. Every entry of the user pool that the constructor returns is
    stored under the user's own id, "U-" and eight characters; its preferred
    vehicle type is one of the vehicle table, its cancellation probability
    lies between 0.02 and 0.08, and its last activity is the time of
    construction. *)
Theorem constructed_users_well_formed config now fake r :
  exists g r',
    init math_cos math_sin config now fake r = Return g r'
    /\ Forall (user_ok now) (users g).
Proof.
  destruct (init_plain config now fake r) as (g & r' & E & _ & (F & _) & _).
  exists g, r'. split; [exact E|].
  eapply Forall_impl; [|exact F]. now intros item [H _].
Qed.

(** X9. A pool never holds more entries than its configured count and
    never two entries under one key; it holds at least one entry when the
    count is positive.  It can hold fewer than the count, an id drawn twice
    overwriting the earlier entry. *)
Theorem constructed_pool_sizes config now fake r :
  exists g r',
    init math_cos math_sin config now fake r = Return g r'
    /\ (List.length (drivers g) <= Z.to_nat (num_drivers config))%nat
    /\ (List.length (users g) <= Z.to_nat (num_users config))%nat
    /\ NoDup (Py.keys (drivers g))
    /\ NoDup (Py.keys (users g))
    /\ (0 < num_drivers config -> drivers g <> [])
    /\ (0 < num_users config -> users g <> []).
Proof.
  destruct (init_plain config now fake r)
    as (g & r' & E & (_ & Nd & Ld & Pd & _) & (_ & Nu & Lu & Pu & _) & _).
  exists g, r'. repeat split; try assumption.
  - intro H. apply Pd. lia.
  - intro H. apply Pu. lia.
Qed.

(** X10. Besides the two pools, the object the constructor returns holds
    the configuration it was given, the time of construction as its clock,
    the default grid, the vehicle table and an empty [active_rides]; its
    [Faker] has handed out one name for each pass of the user loop. *)
Theorem constructed_attributes config now fake r :
  exists g r',
    init math_cos math_sin config now fake r = Return g r'
    /\ RideHailingDataGenerator.config g = config
    /\ current_time g = now
    /\ city_grid g = CityGrid.default
    /\ vehicle_types g = vehicle_types_table
    /\ active_rides g = []
    /\ faker g = mkFaker (names fake) (issued fake + Z.to_nat (num_users config)).
Proof.
  destruct (init_plain config now fake r) as (g & r' & E & _ & _ & H).
  exists g, r'. split; [exact E | exact H].
Qed.

End Constructor.

(** The pool can be smaller than the count asked for: when every
    identifier drawn is the same, a configuration with 2 drivers and 3
    users yields one driver and one user. *)
Example colliding_ids_shrink_pools :
  match init Sample.cos_stub Sample.sin_stub (mkConfig 2 3 5) 1000 Sample.fake
             constant_tape with
  | Return g _ => List.length (drivers g) = 1%nat /\ List.length (users g) = 1%nat
  | Raise _ _ => False
  end.
Proof. vm_compute. split; reflexivity. Qed.

End PoolFacts.

(* ================================================================= *)
(** ** More on the tick *)

Module TickFacts.

Import RideHailingDataGenerator RandomFacts GeneratorFacts PoolFacts More.
Local Open Scope Z_scope.

(** A value rounded to cents stays between two bounds given in cents. *)
Lemma round2_between (lo hi : Z) x :
  (inject_Z lo * (1 # 100) <= x <= inject_Z hi * (1 # 100))%Q ->
  (inject_Z lo * (1 # 100) <= Py.round2 x <= inject_Z hi * (1 # 100))%Q.
Proof.
  intros [H1 H2]. split.
  - now apply RoundFacts.round2_ge_cents.
  - now apply RoundFacts.round2_le_cents.
Qed.

(** One pass of the request loop, for the fields drawn on their own. *)
Lemma append_request_priced ride_requests g r :
  users g <> [] ->
  exists req r',
    append_request ride_requests (mkWorld g r)
    = Return (ride_requests ++ [req]) (mkWorld g r')
    /\ priced req.
Proof.
  intro Hne. unfold append_request.
  rewrite (bind_Return _ (attr_run users _)). cbn [self].
  destruct (choice_run _ r (values_nonempty _ Hne)) as (u & Eu & Iu).
  rewrite (bind_Return _ (rand_Return (w := mkWorld g r) Eu)). cbn [self].
  rewrite (bind_Return _ (rand_Return (w := mkWorld g _) (uuid4_prefix_run _))).
  cbn [self rnd].
  rewrite (bind_Return _ (attr_run current_time _)). cbn [self].
  destruct (randint_run 0 4 (Random.advance (Random.advance r))) as (j & Ej & Hj);
    [lia|].
  rewrite (bind_Return _ (rand_Return (w := mkWorld g _) Ej)). cbn [self rnd].
  rewrite (bind_Return _ (rand_Return (w := mkWorld g _)
                            (uniform_run _ _ _))). cbn [self rnd].
  destruct (randint_run 5 45
              (Random.advance (Random.advance (Random.advance (Random.advance r)))))
    as (m & Em & Hm); [lia|].
  rewrite (bind_Return _ (rand_Return (w := mkWorld g _) Em)). cbn [self rnd].
  rewrite (bind_Return _ (rand_Return (w := mkWorld g _)
                            (uniform_run _ _ _))). cbn [self rnd].
  match goal with
  | |- context [bind (rand (Random.randint 1 4)) _ (mkWorld g ?s)] =>
      destruct (randint_run 1 4 s) as (n & En & Hn); [lia|];
      rewrite (bind_Return _ (rand_Return (w := mkWorld g s) En))
  end.
  cbn [self rnd].
  eexists. eexists. split; [reflexivity|].
  unfold priced.
  cbn [RideRequest.request_id RideRequest.estimated_fare
       RideRequest.estimated_duration RideRequest.estimated_distance
       RideRequest.passenger_count].
  split; [apply uuid_id_with_prefix|].
  split; [|split; [exact Hm|split; [|exact Hn]]].
  - pose proof (unit_draw_range
                  (Random.advance (Random.advance (Random.advance r)))) as U.
    match goal with
    | |- (_ <= Py.round2 ?x <= _)%Q =>
        pose proof (round2_between 500 5000 x) as B;
        change (inject_Z 500) with 500%Q in B;
        change (inject_Z 5000) with 5000%Q in B;
        assert (K : (500 * (1 # 100) <= x <= 5000 * (1 # 100))%Q) by (split; lra);
        specialize (B K); revert B; generalize (Py.round2 x); intros; lra
    end.
  - pose proof (unit_draw_range
                  (Random.advance
                     (Random.advance
                        (Random.advance (Random.advance (Random.advance r))))))
      as U.
    match goal with
    | |- (_ <= Py.round2 ?x <= _)%Q =>
        pose proof (round2_between 100 2000 x) as B;
        change (inject_Z 100) with 100%Q in B;
        change (inject_Z 2000) with 2000%Q in B;
        assert (K : (100 * (1 # 100) <= x <= 2000 * (1 # 100))%Q) by (split; lra);
        specialize (B K); revert B; generalize (Py.round2 x); intros; lra
    end.
Qed.

Lemma priced_loop g n : forall acc r,
  users g <> [] ->
  Forall priced acc ->
  exists batch r',
    for_range n append_request acc (mkWorld g r) = Return batch (mkWorld g r')
    /\ Forall priced batch.
Proof.
  induction n as [|n IH]; intros acc r Hne Hacc.
  - exists acc, r. split; [reflexivity | exact Hacc].
  - destruct (append_request_priced acc g r Hne) as (req & r1 & E1 & P1).
    destruct (IH (acc ++ [req])%list r1 Hne) as (batch & r' & E & F).
    + apply Forall_app. split; [exact Hacc|]. now constructor.
    + exists batch, r'. split; [|exact F].
      cbn [for_range]. now rewrite (bind_Return _ E1).
Qed.

Lemma tick_priced w :
  match generate_ride_requests w with
  | Return batch _ => Forall priced batch
  | Raise _ _ => users (self w) = []
  end.
Proof.
  destruct (users (self w)) as [|u0 l] eqn:Hu.
  - now rewrite (tick_on_empty_pool w Hu).
  - destruct w as [g r]. cbn [self] in Hu.
    unfold generate_ride_requests.
    rewrite (bind_Return _ (attr_run _ _)). cbn [self].
    rewrite (bind_Return _ (rand_Return (w := mkWorld g r) (gauss_run _ _ _))).
    cbv zeta. cbn [self rnd].
    match goal with
    | |- context [bind (for_range ?n append_request []) _ (mkWorld g ?s)] =>
        destruct (priced_loop g n [] s) as (batch & r' & E & F);
          [congruence | constructor |]
    end.
    rewrite (bind_Return _ E). exact F.
Qed.

(** X12. Every request of a batch has an id made of "R-" and eight
    characters, an estimated fare between 5 and 50, an estimated duration
    between 5 and 45 minutes, an estimated distance between 1 and 20, and 1
    to 4 passengers.  A tick returns no batch only when the user pool is
    empty. *)
Theorem requests_priced w :
  match generate_ride_requests w with
  | Return batch _ => Forall priced batch
  | Raise _ _ => users (self w) = []
  end.
Proof. exact (tick_priced w). Qed.

(** X13. Of two ticks of one generator, the later one stamps every request
    later than the earlier one stamped any of its own, whatever was drawn
    from the [random] module in between. *)
Theorem later_batch_later_stamps w batch1 w1 r batch2 w2 :
  generate_ride_requests w = Return batch1 w1 ->
  generate_ride_requests (mkWorld (self w1) r) = Return batch2 w2 ->
  Forall (fun a =>
            Forall (fun b => RideRequest.timestamp a < RideRequest.timestamp b)
                   batch2)
         batch1.
Proof.
  intros E1 E2.
  destruct (users (self w)) as [|u0 l] eqn:Hu.
  { rewrite (tick_on_empty_pool w Hu) in E1. discriminate E1. }
  destruct (tick_run w) as (b1 & r1 & T1 & _ & F1); [congruence|].
  rewrite T1 in E1. injection E1 as <- <-. cbn [self] in E2.
  destruct (tick_run (mkWorld (set_current_time (current_time (self w) + 5) (self w)) r))
    as (b2 & r2 & T2 & _ & F2).
  { cbn. congruence. }
  rewrite T2 in E2. injection E2 as <- _.
  cbn [self set_current_time current_time] in F2.
  rewrite Forall_forall in F1, F2.
  apply Forall_forall. intros a Ha. apply Forall_forall. intros b Hb.
  destruct (F1 a Ha) as [_ (ja & Hja & Ea)].
  destruct (F2 b Hb) as [_ (jb & Hjb & Eb)].
  cbn in Eb. rewrite Ea, Eb. lia.
Qed.

Lemma later_batch_later_stamps_witness :
  Forall (fun a =>
            Forall (fun b => RideRequest.timestamp a < RideRequest.timestamp b)
                   (value_of
                      (generate_ride_requests
                         (mkWorld
                            (self (state_after
                                     (generate_ride_requests
                                        (Sample.world Sample.two_users))))
                            (Sample.tape [2; 9]%N 0)))
                      []))
         (value_of (generate_ride_requests (Sample.world Sample.two_users)) []).
Proof.
  apply (later_batch_later_stamps
           (Sample.world Sample.two_users) _
           (state_after (generate_ride_requests (Sample.world Sample.two_users)))
           (Sample.tape [2; 9]%N 0) _
           (state_after
              (generate_ride_requests
                 (mkWorld
                    (self (state_after
                             (generate_ride_requests
                                (Sample.world Sample.two_users))))
                    (Sample.tape [2; 9]%N 0))))).
  - vm_compute. reflexivity.
  - vm_compute. reflexivity.
Defined.

Lemma set_clock_twice c n g :
  set_current_time (current_time (set_current_time (c + 5) g) + 5 * Z.of_nat n)
                   (set_current_time (c + 5) g)
  = set_current_time (c + 5 * Z.of_nat (Datatypes.S n)) g.
Proof.
  rewrite Nat2Z.inj_succ. unfold set_current_time.
  cbn [config faker city_grid current_time vehicle_types drivers users active_rides].
  f_equal. lia.
Qed.

Lemma ticks_run n : forall g r,
  users g <> [] ->
  exists batches r',
    ticks n (mkWorld g r)
    = Return batches
        (mkWorld (set_current_time (current_time g + 5 * Z.of_nat n) g) r')
    /\ List.length batches = n
    /\ Forall (fun batch => batch <> []) batches
    /\ batches_stamped (current_time g) batches.
Proof.
  induction n as [|n IH]; intros g r Hne.
  - exists [], r. split; [|repeat split; constructor].
    cbn [ticks]. unfold ret. f_equal. f_equal.
    destruct g. unfold set_current_time.
    cbn [config faker city_grid current_time vehicle_types drivers users
         active_rides Z.of_nat].
    f_equal. lia.
  - destruct (tick_run (mkWorld g r) Hne) as (b & r1 & T & L & F).
    cbn [self rnd] in T, L, F.
    destruct (IH (set_current_time (current_time g + 5) g) r1)
      as (bs & r' & E & Ln & Fn & Sn); [exact Hne|].
    exists (b :: bs), r'. split; [|split; [|split]].
    + cbn [ticks]. rewrite (bind_Return _ T), (bind_Return _ E).
      unfold ret. now rewrite set_clock_twice.
    + cbn [List.length]. now rewrite Ln.
    + constructor; [|exact Fn].
      rewrite PyFacts.max_int_spec in L. destruct b; [cbn in L; lia | discriminate].
    + cbn [batches_stamped]. split; [|exact Sn].
      eapply Forall_impl; [|exact F].
      intros req [_ (j & Hj & ->)]. lia.
Qed.

(** X14. On a non-empty user pool, [n] ticks in a row all return: [n]
    batches, none of them empty, the requests of the first stamped within
    the five seconds that start at the clock, those of the second within
    the next five, and so on; the generator is left as it was found but for
    its clock, [5 * n] seconds later. *)
Theorem consecutive_ticks n w :
  users (self w) <> [] ->
  exists batches w',
    ticks n w = Return batches w'
    /\ List.length batches = n
    /\ Forall (fun batch => batch <> []) batches
    /\ batches_stamped (current_time (self w)) batches
    /\ self w' = set_current_time (current_time (self w) + 5 * Z.of_nat n) (self w).
Proof.
  destruct w as [g r]. cbn [self]. intro Hne.
  destruct (ticks_run n g r Hne) as (bs & r' & E & L & F & S).
  eexists bs, _. split; [exact E|]. repeat split; assumption.
Qed.

Lemma consecutive_ticks_witness :
  exists batches w',
    ticks 3 (Sample.world Sample.two_users) = Return batches w'
    /\ List.length batches = 3%nat
    /\ Forall (fun batch => batch <> []) batches
    /\ batches_stamped (current_time (self (Sample.world Sample.two_users))) batches
    /\ self w' = set_current_time
                   (current_time (self (Sample.world Sample.two_users))
                    + 5 * Z.of_nat 3)
                   (self (Sample.world Sample.two_users)).
Proof.
  apply (consecutive_ticks 3 (Sample.world Sample.two_users)). discriminate.
Defined.

Lemma append_request_same acc g g' r :
  users g = users g' ->
  current_time g = current_time g' ->
  observable (append_request acc (mkWorld g r))
  = observable (append_request acc (mkWorld g' r)).
Proof.
  intros Hu Hc.
  unfold append_request, attr, gets, rand, zoom, set_rnd,
    Random.uuid4_prefix, Random.randint, Random.uniform, Random.random,
    Random.randbelow, Random.next_raw, bind, ret.
  cbn [self rnd]. rewrite Hu.
  destruct (Random.choice (Py.values (users g')) r) as [u r1|e r1];
    cbn [self rnd observable]; [|reflexivity].
  now rewrite Hc.
Qed.

Lemma request_loop_same g g' n : forall acc r,
  users g <> [] ->
  users g = users g' ->
  current_time g = current_time g' ->
  exists batch r',
    for_range n append_request acc (mkWorld g r) = Return batch (mkWorld g r')
    /\ for_range n append_request acc (mkWorld g' r) = Return batch (mkWorld g' r').
Proof.
  induction n as [|n IH]; intros acc r Hne Hu Hc.
  - exists acc, r. split; reflexivity.
  - destruct (append_request_run acc g r Hne) as (req & r1 & E1 & _).
    destruct (append_request_run acc g' r) as (req' & r1' & E1' & _);
      [congruence|].
    pose proof (append_request_same acc g g' r Hu Hc) as S.
    rewrite E1, E1' in S. cbn [observable rnd] in S.
    injection S as Ea Er. apply app_inj_tail in Ea. destruct Ea as [_ <-].
    subst r1'.
    destruct (IH (acc ++ [req])%list r1 Hne Hu Hc) as (batch & r' & E & E').
    exists batch, r'. cbn [for_range].
    now rewrite (bind_Return _ E1), (bind_Return _ E1').
Qed.

Lemma tick_same w w' :
  users (self w) = users (self w') ->
  current_time (self w) = current_time (self w') ->
  base_request_rate (config (self w)) = base_request_rate (config (self w')) ->
  rnd w = rnd w' ->
  observable (generate_ride_requests w) = observable (generate_ride_requests w').
Proof.
  destruct w as [g r], w' as [g' r0]. cbn [self rnd]. intros Hu Hc Hr <-.
  destruct (users g) as [|u0 l] eqn:Hg.
  - rewrite (tick_on_empty_pool (mkWorld g r)) by exact Hg.
    rewrite (tick_on_empty_pool (mkWorld g' r)) by (cbn [self]; congruence).
    reflexivity.
  - unfold generate_ride_requests.
    rewrite !(bind_Return _ (attr_run _ _)). cbn [self].
    rewrite (bind_Return _ (rand_Return (w := mkWorld g r) (gauss_run _ _ _))).
    rewrite (bind_Return _ (rand_Return (w := mkWorld g' r) (gauss_run _ _ _))).
    cbv zeta. cbn [self rnd]. rewrite <- Hr.
    match goal with
    | |- context [bind (for_range ?n append_request []) _ (mkWorld g ?s)] =>
        destruct (request_loop_same g g' n [] s) as (batch & r' & E & E');
          [congruence | congruence | exact Hc |]
    end.
    rewrite (bind_Return _ E), (bind_Return _ E'). reflexivity.
Qed.

(** X15. A tick reads nothing of the generator but its user pool, its
    clock and the base request rate of its configuration: two generators
    that agree on these three return, from the same state of the [random]
    module, batches that are the same but for the identifiers of the
    requests, which [uuid.uuid4()] makes up (or they raise the same
    exception), and they leave the [random] module in the same state,
    whatever their driver pools, their [active_rides] and their other
    attributes hold. *)
Theorem tick_reads_users_clock_rate w w' :
  users (self w) = users (self w') ->
  current_time (self w) = current_time (self w') ->
  base_request_rate (config (self w)) = base_request_rate (config (self w')) ->
  rnd w = rnd w' ->
  apart_from_ids (generate_ride_requests w)
  = apart_from_ids (generate_ride_requests w').
Proof.
  intros Hu Hc Hr Hs. pose proof (tick_same w w' Hu Hc Hr Hs) as T.
  destruct (generate_ride_requests w) as [b1 w1|e1 w1],
           (generate_ride_requests w') as [b2 w2|e2 w2];
    cbn [observable apart_from_ids] in *; congruence.
Qed.

Lemma tick_reads_users_clock_rate_witness :
  apart_from_ids (generate_ride_requests (Sample.world Sample.two_users))
  = apart_from_ids
      (generate_ride_requests
         (mkWorld (set_drivers [("D-0000000d"%string, Avro.sample_driver)]
                               (self (Sample.world Sample.two_users)))
                  (rnd (Sample.world Sample.two_users)))).
Proof.
  apply (tick_reads_users_clock_rate (Sample.world Sample.two_users)); reflexivity.
Defined.

Section Constructed.

Variables math_cos math_sin : Q -> Q.

(** X16. A generator constructed with a positive [num_users] never faults
    on a tick: whatever the state of the [random] module, the tick returns
    a batch that is not empty, and the [user_id] of every request is a key
    of the user pool under which the very user the request was built from
    is stored. *)
Theorem constructed_generator_ticks config now fake r :
  0 < num_users config ->
  exists g r',
    init math_cos math_sin config now fake r = Return g r'
    /\ forall rs,
       exists batch w',
         generate_ride_requests (mkWorld g rs) = Return batch w'
         /\ batch <> []
         /\ Forall (resolves g) batch.
Proof.
  intro Hpos.
  destruct (init_plain math_cos math_sin config now fake r)
    as (g & r' & E & _ & (Fu & Nu & _ & Pu & _) & _).
  exists g, r'. split; [exact E|]. intro rs.
  assert (Hne : users g <> []) by (apply Pu; lia).
  destruct (tick_run (mkWorld g rs) Hne) as (b & r1 & T & L & F).
  cbn [self rnd] in T, L, F.
  eexists b, _. split; [exact T|]. split.
  - rewrite PyFacts.max_int_spec in L. destruct b; [cbn in L; lia | discriminate].
  - eapply Forall_impl; [|exact F].
    intros req [(pos & u & _ & Iu & B) _].
    exists u. split; [|exact B].
    apply in_map_iff in Iu. destruct Iu as ([k u'] & Eu & Iu). cbn [snd] in Eu. subst u'.
    rewrite Forall_forall in Fu. destruct (Fu _ Iu) as [(Hk & _) _].
    cbn [fst snd] in Hk. subst k.
    destruct B as (-> & _).
    now apply getitem_of_entry.
Qed.

End Constructed.

Lemma constructed_generator_ticks_witness :
  exists g r',
    init Sample.cos_stub Sample.sin_stub producer_config 1000 Sample.fake
         (Sample.tape [4; 0; 2; 0; 7; 1]%N 0)
    = Return g r'
    /\ forall rs,
       exists batch w',
         generate_ride_requests (mkWorld g rs) = Return batch w'
         /\ batch <> []
         /\ Forall (resolves g) batch.
Proof.
  apply (constructed_generator_ticks Sample.cos_stub Sample.sin_stub).
  reflexivity.
Defined.

End TickFacts.

(* ================================================================= *)
(** ** The records against the schemas *)

Module SchemaFacts.

Import RideHailingDataGenerator RandomFacts GeneratorFacts PoolFacts TickFacts More.
Import Avro.
Local Open Scope Z_scope.

Lemma in_int64_iff z :
  in_int64 z = true <-> -9223372036854775808 <= z <= 9223372036854775807.
Proof. unfold in_int64. rewrite andb_true_iff, !Z.leb_le. tauto. Qed.

Lemma in_int32_iff z :
  in_int32 z = true <-> -2147483648 <= z <= 2147483647.
Proof. unfold in_int32. rewrite andb_true_iff, !Z.leb_le. tauto. Qed.

Lemma request_conforms r :
  RideRequest.status r = "REQUESTED"%string ->
  in_int64 (RideRequest.timestamp r) = true ->
  in_int32 (RideRequest.estimated_duration r) = true ->
  in_int32 (RideRequest.passenger_count r) = true ->
  validate ride_request_schema (request_dict r) = true.
Proof.
  destruct r. cbn [RideRequest.status RideRequest.timestamp
                    RideRequest.estimated_duration RideRequest.passenger_count].
  intros -> Ht Hd Hp.
  cbv -[in_int32 in_int64]. now rewrite Ht, Hd, Hp.
Qed.

Lemma table_capacity_small vt cap :
  Py.getitem vehicle_types_table vt = Some cap -> in_int32 cap = true.
Proof.
  unfold vehicle_types_table. cbn [Py.getitem].
  repeat match goal with
         | |- context [String.eqb ?a ?b] => destruct (String.eqb a b)
         end;
    intro H; try discriminate H; injection H as <-; reflexivity.
Qed.

Lemma driver_conforms now item ts :
  driver_ok now item ->
  in_int64 now = true ->
  in_int64 ts = true ->
  validate driver_status_schema (driver_dict (snd item)) = false
  /\ validate driver_status_schema (set_timestamp (driver_dict (snd item)) ts)
     = true.
Proof.
  destruct item as [k [id loc status [vid vt cap] ride updated battery]].
  unfold driver_ok.
  cbn [fst snd Driver.driver_id Driver.vehicle_info Driver.vehicle_id
       Driver.status Driver.vehicle_type Driver.capacity Driver.current_ride_id
       Driver.last_update Driver.battery_level].
  intros (_ & _ & _ & Hst & Hcap & -> & -> & _) Hnow Hts.
  apply table_capacity_small in Hcap.
  assert (S : status = "AVAILABLE"%string \/ status = "BUSY"%string
              \/ status = "OFFLINE"%string).
  { cbn in Hst. intuition. }
  destruct S as [-> | [-> | ->]];
    (split; [reflexivity|]);
    cbv -[in_int32 in_int64]; now rewrite Hts, Hnow, Hcap.
Qed.

(** X17. While the clock is within the range of a 64-bit integer, every
    request of a batch, as the dictionary the tick builds, is an instance of
    [ride_request_schema]: every field of the schema is present with a
    value of its type, the status being one of the schema's symbols. *)
Theorem emitted_requests_conform w :
  -9223372036854775808 <= current_time (self w) ->
  current_time (self w) + 4 <= 9223372036854775807 ->
  match generate_ride_requests w with
  | Return batch _ =>
      Forall (fun r => validate ride_request_schema (request_dict r) = true) batch
  | Raise _ _ => users (self w) = []
  end.
Proof.
  intros Hlo Hhi.
  destruct (users (self w)) as [|u0 l] eqn:Hu.
  - now rewrite (tick_on_empty_pool w Hu).
  - destruct (tick_run w) as (batch & r' & E & _ & F); [congruence|].
    pose proof (tick_priced w) as P. rewrite E in *.
    rewrite Forall_forall in *. intros r Hr.
    destruct (F r Hr) as [(pos & u & _ & _ & B) (j & Hj & Ts)].
    destruct (P r Hr) as (_ & _ & Hd & _ & Hp).
    destruct B as (_ & _ & _ & _ & Hs).
    apply request_conforms.
    + exact Hs.
    + apply in_int64_iff. lia.
    + apply in_int32_iff. lia.
    + apply in_int32_iff. lia.
Qed.

Lemma emitted_requests_conform_witness :
  match generate_ride_requests (Sample.world Sample.two_users) with
  | Return batch _ =>
      Forall (fun r => validate ride_request_schema (request_dict r) = true) batch
  | Raise _ _ => users (self (Sample.world Sample.two_users)) = []
  end.
Proof.
  apply (emitted_requests_conform (Sample.world Sample.two_users)).
  - vm_compute. discriminate.
  - vm_compute. discriminate.
Defined.

Section Constructed.

Variables math_cos math_sin : Q -> Q.

(** X18. A driver of the pool the constructor returns is not yet an
    instance of [driver_status_schema], for want of the field [timestamp];
    it is one as soon as [eventhub_producer.py] has set
    [driver["timestamp"]], the time of construction and the timestamp being
    within the range of a 64-bit integer. *)
Theorem constructed_drivers_conform config now fake r ts :
  in_int64 now = true ->
  in_int64 ts = true ->
  exists g r',
    init math_cos math_sin config now fake r = Return g r'
    /\ Forall (fun item =>
                 validate driver_status_schema (driver_dict (snd item)) = false
                 /\ validate driver_status_schema
                             (set_timestamp (driver_dict (snd item)) ts) = true)
              (drivers g).
Proof.
  intros Hnow Hts.
  destruct (init_plain math_cos math_sin config now fake r)
    as (g & r' & E & (F & _) & _).
  exists g, r'. split; [exact E|].
  eapply Forall_impl; [|exact F].
  intros item [Hok _]. now apply (driver_conforms now).
Qed.

End Constructed.

Lemma constructed_drivers_conform_witness :
  exists g r',
    init Sample.cos_stub Sample.sin_stub producer_config 1000 Sample.fake
         (Sample.tape [4; 0; 2; 0; 7; 1]%N 0)
    = Return g r'
    /\ Forall (fun item =>
                 validate driver_status_schema (driver_dict (snd item)) = false
                 /\ validate driver_status_schema
                             (set_timestamp (driver_dict (snd item)) 1003) = true)
              (drivers g).
Proof.
  apply (constructed_drivers_conform Sample.cos_stub Sample.sin_stub).
  - reflexivity.
  - reflexivity.
Defined.

(** The sample driver, before and after the producer has stamped it. *)
Example sample_driver_needs_timestamp :
  validate driver_status_schema (driver_dict sample_driver) = false
  /\ validate driver_status_schema (set_timestamp (driver_dict sample_driver) 1003)
     = true.
Proof. split; reflexivity. Qed.

End SchemaFacts.
